(** * Declarations and type tests of the stream and renderer typings

    The repository holds two TypeScript declaration files of the [three]
    package ([WebGLRenderer.d.ts], [Lut3DNode.d.ts]) and one type-test module
    for the Node stream API.  None of them contains an algorithm: the
    "program" is the declarations themselves.  They are embedded here as
    syntax trees; what is proved concerns

    - the members a declaration lists ([class_fields], [class_ctors], ...),
    - which calls a declared signature admits ([call_type]),
    - where the import specifiers of a file point ([resolve]), and
    - which statements of a file would run if the file were loaded as a
      module ([run]). *)

From Stdlib Require Import String Ascii List Bool Arith Lia.
Import ListNotations.
Open Scope string_scope.

Set Implicit Arguments.
#[local] Set Warnings "-register-all".

(** ** Type expressions *)

(** The type syntax the two declaration files use. *)
Inductive ty : Type :=
| TAny
| TUnknown
| TVoid
| TNull
| TUndefined
| TNumber
| TString
| TBoolean
| TRef (name : string) (args : list ty)      (* Name or Name<args> *)
| TUnion (alts : list ty)                    (* a | b | ... *)
| TArray (elem : ty)                         (* elem[] *)
| TFun (params : list param) (ret : ty)      (* (p: T, q?: U) => ret *)
| TTypeof (name : string)                    (* typeof name *)
with param : Type :=
| Param (pname : string) (optional : bool) (ptype : ty).

Definition pname (p : param) : string := let (n, _, _) := p in n.
Definition optional (p : param) : bool := let (_, o, _) := p in o.
Definition ptype (p : param) : ty := let (_, _, t) := p in t.

(** [x: T] and [x?: T]. *)
Definition req (n : string) (t : ty) : param := Param n false t.
Definition opt (n : string) (t : ty) : param := Param n true t.

(** A type name without type arguments. *)
Definition named (n : string) : ty := TRef n [].

(** ** Declarations *)

Inductive member : Type :=
| MField (name : string) (opt_field : bool) (t : ty)       (* name: T / name?: T *)
| MCtor (params : list param)                              (* constructor(...) *)
| MMethod (name : string) (params : list param) (ret : ty) (* name(...): ret *)
| MGetter (name : string) (t : ty)                         (* get name(): T *)
| MSetter (name : string) (p : param).                     (* set name(p: T) *)

(** The clause of an import statement. *)
Inductive import_clause : Type :=
| Named (bindings : list (string * string))  (* { a, b as c }: (imported, local) *)
| Namespace (local : string)                 (* * as local *)
| RequireEq (local : string).                (* import local = require(...) *)

Definition same (n : string) : string * string := (n, n).

(** ** Expressions and statements of the test module *)

(** Function values are kept by their parameter list only: creating a closure
    runs nothing of its body. *)
Inductive expr : Type :=
| EId (x : string)
| EStr (s : string)
| ENum (n : nat)
| EBool (b : bool)
| EArr (elems : list expr)
| EObj (props : list (string * expr))
| EFun (fparams : list string)
| EMember (obj : expr) (field : string)
| ECall (callee : expr) (args : list expr)
| ENew (ctor : expr) (args : list expr).

Inductive pattern : Type :=
| PVar (x : string)
| PArr (xs : list string).    (* const [a, b] = ... *)

(** Top-level statements.  A function declaration is kept by name and by the
    lines of the source its body spans: declaring it runs nothing of the
    body. *)
Inductive stmt : Type :=
| SImport (clause : import_clause) (from : string)
| SInterface (name : string) (extends : list ty) (members : list member)
| SClass (name : string) (extends : option ty) (members : list member)
| SExportDefault (name : string)
| SDeclConst (name : string) (t : ty)
| SFunction (name : string) (is_async : bool) (first_line last_line : nat)
| SConst (pat : pattern) (annot : option ty) (init : expr)
| SLet (x : string) (init : expr)
| SAssign (x : string) (rhs : expr)
| SExpr (e : expr)
| SBlock (body : list stmt).

Record source_file : Type := SourceFile {
  path : string;
  ambient : bool;          (* a .d.ts file: every declaration is ambient *)
  body : list stmt
}.

(** ** types/three/examples/jsm/tsl/display/Lut3DNode.d.ts *)

Module Lut3DNode_d_ts.

Definition Lut3DNode_members : list member :=
  [ MField "inputNode" false (named "Node");
    MField "lutNode" false (named "Texture3DNode");
    MField "size" false (TRef "ShaderNodeObject" [TRef "UniformNode" [TNumber]]);
    MField "intensityNode" false (TRef "UniformNode" [TNumber]);
    MCtor [ req "inputNode" (named "Node");
            req "lutNode" (TRef "UniformNode" [named "Data3DTexture"]);
            req "size" TNumber;
            req "intensityNode" (TRef "UniformNode" [TNumber]) ] ].

Definition lut3D_type : ty :=
  TFun [ req "node" (named "Node");
         req "lut" (named "Node");
         req "size" TNumber;
         req "intensity" (named "Node") ]
       (TRef "ShaderNodeObject" [named "Lut3DNode"]).

Definition file : source_file :=
  SourceFile "types/three/examples/jsm/tsl/display/Lut3DNode.d.ts" true
    [ SImport (Named [same "ShaderNodeObject"]) "three/tsl";
      SImport (Named [same "Data3DTexture"; same "Node"; same "TempNode";
                      same "Texture3DNode"; same "UniformNode"]) "three/webgpu";
      SClass "Lut3DNode" (Some (named "TempNode")) Lut3DNode_members;
      SExportDefault "Lut3DNode";
      SDeclConst "lut3D" lut3D_type ].

End Lut3DNode_d_ts.

(** ** types/three/src/renderers/WebGLRenderer.d.ts *)

Module WebGLRenderer_d_ts.

Definition imports : list stmt :=
  [ SImport (Named [same "Camera"]) "../cameras/Camera.js";
    SImport (Named [same "CullFace"; same "ShadowMapType"; same "ToneMapping";
                    same "WebGLCoordinateSystem"]) "../constants.js";
    SImport (Named [same "TypedArray"]) "../core/BufferAttribute.js";
    SImport (Named [same "BufferGeometry"]) "../core/BufferGeometry.js";
    SImport (Named [same "Object3D"]) "../core/Object3D.js";
    SImport (Named [same "Material"]) "../materials/Material.js";
    SImport (Named [same "Box2"]) "../math/Box2.js";
    SImport (Named [same "Box3"]) "../math/Box3.js";
    SImport (Named [same "Color"; same "ColorRepresentation"]) "../math/Color.js";
    SImport (Named [same "Plane"]) "../math/Plane.js";
    SImport (Named [same "Vector2"]) "../math/Vector2.js";
    SImport (Named [same "Vector3"]) "../math/Vector3.js";
    SImport (Named [same "Vector4"]) "../math/Vector4.js";
    SImport (Named [same "Scene"]) "../scenes/Scene.js";
    SImport (Named [same "Data3DTexture"]) "../textures/Data3DTexture.js";
    SImport (Named [same "DataArrayTexture"]) "../textures/DataArrayTexture.js";
    SImport (Named [same "OffscreenCanvas"; same "Texture"]) "../textures/Texture.js";
    SImport (Named [same "WebGLCapabilities"; same "WebGLCapabilitiesParameters"])
            "./webgl/WebGLCapabilities.js";
    SImport (Named [same "WebGLExtensions"]) "./webgl/WebGLExtensions.js";
    SImport (Named [same "WebGLInfo"]) "./webgl/WebGLInfo.js";
    SImport (Named [same "WebGLProgram"]) "./webgl/WebGLProgram.js";
    SImport (Named [same "WebGLProperties"]) "./webgl/WebGLProperties.js";
    SImport (Named [same "WebGLRenderLists"]) "./webgl/WebGLRenderLists.js";
    SImport (Named [same "WebGLShadowMap"]) "./webgl/WebGLShadowMap.js";
    SImport (Named [same "WebGLState"]) "./webgl/WebGLState.js";
    SImport (Named [same "WebGLRenderTarget"]) "./WebGLRenderTarget.js";
    SImport (Named [same "WebXRManager"]) "./webxr/WebXRManager.js" ].

Definition opt_bool : ty := TUnion [TBoolean; TUndefined].

Definition WebGLRendererParameters_members : list member :=
  [ MField "canvas" true
      (TUnion [named "HTMLCanvasElement"; named "OffscreenCanvas"; TUndefined]);
    MField "context" true (TUnion [named "WebGLRenderingContext"; TUndefined]);
    MField "alpha" true opt_bool;
    MField "premultipliedAlpha" true opt_bool;
    MField "antialias" true opt_bool;
    MField "stencil" true opt_bool;
    MField "preserveDrawingBuffer" true opt_bool;
    MField "powerPreference" true (TUnion [named "WebGLPowerPreference"; TUndefined]);
    MField "depth" true opt_bool;
    MField "failIfMajorPerformanceCaveat" true opt_bool ].

Definition WebGLDebug_members : list member :=
  [ MField "checkShaderErrors" false TBoolean;
    MField "onShaderError" false
      (TUnion [ TFun [ req "gl" (named "WebGLRenderingContext");
                       req "program" (named "WebGLProgram");
                       req "glVertexShader" (named "WebGLShader");
                       req "glFragmentShader" (named "WebGLShader") ] TVoid;
                TNull ]) ].

Definition sort_method : ty :=
  TUnion [TFun [req "a" TAny; req "b" TAny] TNumber; TNull].

Definition any_target : ty :=
  TUnion [named "WebGLRenderTarget";
          TRef "WebGLRenderTarget" [TArray (named "Texture")]].

Definition compile_params : list param :=
  [ req "scene" (named "Object3D"); req "camera" (named "Camera");
    opt "targetScene" (TUnion [named "Scene"; TNull]) ].

Definition read_pixels_params : list param :=
  [ req "renderTarget" any_target;
    req "x" TNumber; req "y" TNumber; req "width" TNumber; req "height" TNumber;
    req "buffer" (named "TypedArray");
    opt "activeCubeFaceIndex" TNumber; opt "textureIndex" TNumber ].

Definition WebGLRenderer_members : list member :=
  [ MCtor [opt "parameters" (named "WebGLRendererParameters")];
    MField "domElement" false (named "HTMLCanvasElement");
    MField "autoClear" false TBoolean;
    MField "autoClearColor" false TBoolean;
    MField "autoClearDepth" false TBoolean;
    MField "autoClearStencil" false TBoolean;
    MField "debug" false (named "WebGLDebug");
    MField "sortObjects" false TBoolean;
    MField "clippingPlanes" false (TArray (named "Plane"));
    MField "localClippingEnabled" false TBoolean;
    MField "extensions" false (named "WebGLExtensions");
    MGetter "outputColorSpace" TString;
    MSetter "outputColorSpace" (req "colorSpace" TString);
    MGetter "coordinateSystem" (TTypeof "WebGLCoordinateSystem");
    MField "toneMapping" false (named "ToneMapping");
    MField "toneMappingExposure" false TNumber;
    MField "transmissionResolutionScale" false TNumber;
    MField "info" false (named "WebGLInfo");
    MField "shadowMap" false (named "WebGLShadowMap");
    MField "capabilities" false (named "WebGLCapabilities");
    MField "properties" false (named "WebGLProperties");
    MField "renderLists" false (named "WebGLRenderLists");
    MField "state" false (named "WebGLState");
    MField "xr" false (named "WebXRManager");
    MMethod "getContext" []
      (TUnion [named "WebGLRenderingContext"; named "WebGL2RenderingContext"]);
    MMethod "getContextAttributes" [] TAny;
    MMethod "forceContextLoss" [] TVoid;
    MMethod "forceContextRestore" [] TVoid;
    MMethod "getMaxAnisotropy" [] TNumber;
    MMethod "getPrecision" [] TString;
    MMethod "getPixelRatio" [] TNumber;
    MMethod "setPixelRatio" [req "value" TNumber] TVoid;
    MMethod "getDrawingBufferSize" [req "target" (named "Vector2")] (named "Vector2");
    MMethod "setDrawingBufferSize"
      [req "width" TNumber; req "height" TNumber; req "pixelRatio" TNumber] TVoid;
    MMethod "getSize" [req "target" (named "Vector2")] (named "Vector2");
    MMethod "setSize"
      [req "width" TNumber; req "height" TNumber; opt "updateStyle" TBoolean] TVoid;
    MMethod "getCurrentViewport" [req "target" (named "Vector4")] (named "Vector4");
    MMethod "getViewport" [req "target" (named "Vector4")] (named "Vector4");
    MMethod "setViewport"
      [ req "x" (TUnion [named "Vector4"; TNumber]);
        opt "y" TNumber; opt "width" TNumber; opt "height" TNumber ] TVoid;
    MMethod "getScissor" [req "target" (named "Vector4")] (named "Vector4");
    MMethod "setScissor"
      [ req "x" (TUnion [named "Vector4"; TNumber]);
        opt "y" TNumber; opt "width" TNumber; opt "height" TNumber ] TVoid;
    MMethod "getScissorTest" [] TBoolean;
    MMethod "setScissorTest" [req "enable" TBoolean] TVoid;
    MMethod "setOpaqueSort" [req "method" sort_method] TVoid;
    MMethod "setTransparentSort" [req "method" sort_method] TVoid;
    MMethod "getClearColor" [req "target" (named "Color")] (named "Color");
    MMethod "setClearColor"
      [req "color" (named "ColorRepresentation"); opt "alpha" TNumber] TVoid;
    MMethod "getClearAlpha" [] TNumber;
    MMethod "setClearAlpha" [req "alpha" TNumber] TVoid;
    MMethod "clear"
      [opt "color" TBoolean; opt "depth" TBoolean; opt "stencil" TBoolean] TVoid;
    MMethod "clearColor" [] TVoid;
    MMethod "clearDepth" [] TVoid;
    MMethod "clearStencil" [] TVoid;
    MMethod "clearTarget"
      [ req "renderTarget" (named "WebGLRenderTarget");
        req "color" TBoolean; req "depth" TBoolean; req "stencil" TBoolean ] TVoid;
    MMethod "resetGLState" [] TVoid;
    MMethod "dispose" [] TVoid;
    MMethod "renderBufferDirect"
      [ req "camera" (named "Camera"); req "scene" (named "Scene");
        req "geometry" (named "BufferGeometry"); req "material" (named "Material");
        req "object" (named "Object3D"); req "geometryGroup" TAny ] TVoid;
    MMethod "setAnimationLoop"
      [req "callback" (TUnion [named "XRFrameRequestCallback"; TNull])] TVoid;
    MMethod "animate" [req "callback" (TFun [] TVoid)] TVoid;
    MField "compile" false (TFun compile_params (TRef "Set" [named "Material"]));
    MField "compileAsync" false
      (TFun compile_params (TRef "Promise" [named "Object3D"]));
    MMethod "render" [req "scene" (named "Object3D"); req "camera" (named "Camera")] TVoid;
    MMethod "getActiveCubeFace" [] TNumber;
    MMethod "getActiveMipmapLevel" [] TNumber;
    MMethod "getRenderTarget" [] (TUnion [named "WebGLRenderTarget"; TNull]);
    MMethod "getCurrentRenderTarget" [] (TUnion [named "WebGLRenderTarget"; TNull]);
    MMethod "setRenderTarget"
      [ req "renderTarget"
          (TUnion [named "WebGLRenderTarget";
                   TRef "WebGLRenderTarget" [TArray (named "Texture")]; TNull]);
        opt "activeCubeFace" TNumber; opt "activeMipmapLevel" TNumber ] TVoid;
    MMethod "readRenderTargetPixels" read_pixels_params TVoid;
    MMethod "readRenderTargetPixelsAsync" read_pixels_params
      (TRef "Promise" [named "TypedArray"]);
    MMethod "copyFramebufferToTexture"
      [ req "texture" (named "Texture");
        opt "position" (TUnion [named "Vector2"; TNull]); opt "level" TNumber ] TVoid;
    MMethod "copyTextureToTexture"
      [ req "srcTexture" (named "Texture"); req "dstTexture" (named "Texture");
        opt "srcRegion" (TUnion [named "Box2"; named "Box3"; TNull]);
        opt "dstPosition" (TUnion [named "Vector2"; named "Vector3"; TNull]);
        opt "srcLevel" TNumber; opt "dstLevel" TNumber ] TVoid;
    MMethod "copyTextureToTexture3D"
      [ req "srcTexture" (named "Texture");
        req "dstTexture" (TUnion [named "Data3DTexture"; named "DataArrayTexture"]);
        opt "srcRegion" (TUnion [named "Box3"; TNull]);
        opt "dstPosition" (TUnion [named "Vector3"; TNull]);
        opt "level" TNumber ] TVoid;
    MMethod "initRenderTarget" [req "target" (named "WebGLRenderTarget")] TVoid;
    MMethod "initTexture" [req "texture" (named "Texture")] TVoid;
    MMethod "resetState" [] TVoid;
    MField "vr" false TBoolean;
    MField "shadowMapEnabled" false TBoolean;
    MField "shadowMapType" false (named "ShadowMapType");
    MField "shadowMapCullFace" false (named "CullFace");
    MMethod "supportsFloatTextures" [] TAny;
    MMethod "supportsHalfFloatTextures" [] TAny;
    MMethod "supportsStandardDerivatives" [] TAny;
    MMethod "supportsCompressedTextureS3TC" [] TAny;
    MMethod "supportsCompressedTexturePVRTC" [] TAny;
    MMethod "supportsBlendMinMax" [] TAny;
    MMethod "supportsVertexTextures" [] TAny;
    MMethod "supportsInstancedArrays" [] TAny;
    MMethod "enableScissorTest" [req "boolean" TAny] TAny ].

Definition file : source_file :=
  SourceFile "types/three/src/renderers/WebGLRenderer.d.ts" true
    (imports ++
     [ SInterface "WebGLRendererParameters"
         [named "WebGLCapabilitiesParameters"] WebGLRendererParameters_members;
       SInterface "WebGLDebug" [] WebGLDebug_members;
       SClass "WebGLRenderer" None WebGLRenderer_members ]).

End WebGLRenderer_d_ts.

(** ** The stream type-test module (src/unnamed/part_000) *)

Module stream_test.

Definition imports : list stmt :=
  [ SImport (Named [same "createReadStream"; same "createWriteStream"]) "node:fs";
    SImport (Named [same "addAbortSignal"; same "Duplex"; same "duplexPair";
                    same "finished"; same "isErrored"; same "isReadable";
                    same "pipeline"; same "Readable"; same "Transform";
                    same "Writable"]) "node:stream";
    SImport (Named [same "promisify"]) "node:util";
    SImport (Named [same "constants"; same "createGzip"]) "node:zlib";
    SImport (RequireEq "assert") "node:assert";
    SImport (Named [same "Blob"]) "node:buffer";
    SImport (Named [same "Http2ServerResponse"]) "node:http2";
    SImport (Named [same "performance"]) "node:perf_hooks";
    SImport (Named [same "stdout"]) "node:process";
    SImport (Namespace "consumers") "node:stream/consumers";
    SImport (Named [("finished", "finishedPromise"); ("pipeline", "pipelinePromise")])
            "node:stream/promises";
    SImport (Named [same "ReadableStream"; same "ReadableStreamBYOBReader";
                    same "TransformStream"; same "WritableStream"]) "node:stream/web";
    SImport (Named [("setInterval", "every"); ("setTimeout", "wait")])
            "node:timers/promises";
    SImport (Named [("MessageChannel", "NodeMC")]) "node:worker_threads" ].

(** [Class.method(args)] and [obj.method(args)]. *)
Definition call_on (o : expr) (m : string) (args : list expr) : expr :=
  ECall (EMember o m) args.
Definition static (c m : string) (args : list expr) : expr :=
  call_on (EId c) m args.
Definition new_ (c : string) (args : list expr) : expr := ENew (EId c) args.

(** [{ readable, writable }] *)
Definition pair_obj : expr :=
  EObj [("readable", EId "readable"); ("writable", EId "writable")].

Definition body : list stmt :=
  imports ++
  [ SFunction "simplified_stream_ctor_test" false 28 206;
    SFunction "streamPipelineFinished" false 208 219;
    SFunction "asyncStreamPipelineFinished" true 221 240;
    SFunction "streamPipelineAsyncTransform" false 243 336;
    SFunction "streamPipelineAsyncPromiseTransform" true 338 405;
    SFunction "streamPipelineAsyncPromiseAbortTransform" true 407 482;
    SFunction "streamPipelineAsyncPromiseOptions" true 484 501;
    SFunction "testConsumers" true 503 516;
    SFunction "stream_readable_pipe_test" false 519 539;
    SFunction "stream_duplex_allowHalfOpen_test" false 541 545;
    (* line 547 *)
    SExpr (ECall (EId "addAbortSignal") [new_ "AbortSignal" []; new_ "Readable" []]);
    (* lines 549-553 *)
    SBlock [ SConst (PVar "a") None
               (static "Readable" "from"
                  [EArr [EStr "test"]; EObj [("objectMode", EBool true)]]) ];
    (* lines 555-558 *)
    SBlock [ SConst (PVar "a") None (new_ "Readable" []);
             SExpr (call_on (EId "a") "unshift" [EStr "something"; EStr "utf8"]) ];
    (* lines 560-565 *)
    SBlock [ SConst (PVar "readable") None (new_ "Readable" []);
             SExpr (static "Readable" "isDisturbed" [EId "readable"]);
             SConst (PVar "readableDidRead") (Some TBoolean)
               (EMember (EId "readable") "readableDidRead");
             SConst (PVar "readableAborted") (Some TBoolean)
               (EMember (EId "readable") "readableAborted") ];
    (* lines 567-571 *)
    SBlock [ SExpr (ECall (EId "isErrored") [new_ "Readable" []]);
             SExpr (ECall (EId "isErrored") [new_ "Duplex" []]);
             SExpr (ECall (EId "isErrored") [new_ "Writable" []]) ];
    (* lines 573-576 *)
    SBlock [ SExpr (ECall (EId "isReadable") [new_ "Readable" []]);
             SExpr (ECall (EId "isReadable") [new_ "Duplex" []]) ];
    (* lines 578-603 *)
    SBlock [ SConst (PVar "readable") None (new_ "Readable" []);
             SExpr (static "Readable" "toWeb" [EId "readable"]);
             SExpr (static "Readable" "toWeb" [EId "readable"; EObj []]);
             SExpr (static "Readable" "toWeb"
                      [EId "readable"; EObj [("strategy", EObj [])]]);
             SExpr (static "Readable" "toWeb"
                      [EId "readable";
                       EObj [("strategy",
                              EObj [("highWaterMark", ENum 3);
                                    ("size", EFun ["chunk"])])]]) ];
    (* lines 605-618 *)
    SBlock [ SConst (PVar "web") None (new_ "ReadableStream" []);
             SExpr (static "Readable" "fromWeb" [EId "web"]);
             SExpr (static "Readable" "fromWeb"
                      [EId "web"; EObj [("objectMode", EBool true)]]);
             SExpr (static "Readable" "fromWeb"
                      [EId "web"; EObj [("emitClose", EBool true)]]) ];
    (* lines 620-624 *)
    SBlock [ SConst (PVar "writable") None (new_ "Writable" []);
             SExpr (static "Writable" "toWeb" [EId "writable"]) ];
    (* lines 626-639 *)
    SBlock [ SConst (PVar "web") None (new_ "WritableStream" []);
             SExpr (static "Writable" "fromWeb" [EId "web"]);
             SExpr (static "Writable" "fromWeb"
                      [EId "web"; EObj [("objectMode", EBool true)]]);
             SExpr (static "Writable" "fromWeb"
                      [EId "web"; EObj [("write", EBool true)]]) ];
    (* lines 641-645 *)
    SBlock [ SConst (PVar "duplex") None (new_ "Duplex" []);
             SExpr (static "Duplex" "toWeb" [EId "duplex"]) ];
    (* lines 647-653 *)
    SBlock [ SConst (PArr ["duplexLeft"; "duplexRight"]) None
               (ECall (EId "duplexPair") []);
             SExpr (EId "duplexLeft");
             SExpr (EId "duplexRight") ];
    (* lines 655-675 *)
    SBlock [ SConst (PVar "readable") None (new_ "ReadableStream" []);
             SConst (PVar "writable") None (new_ "WritableStream" []);
             SExpr (static "Duplex" "fromWeb" [pair_obj]);
             SExpr (static "Duplex" "fromWeb"
                      [pair_obj; EObj [("objectMode", EBool true)]]);
             SExpr (static "Duplex" "fromWeb"
                      [pair_obj; EObj [("emitClose", EBool true)]]);
             SExpr (static "Duplex" "from" [EId "readable"]);
             SExpr (static "Duplex" "from" [EId "writable"]) ];
    SFunction "testReadableReduce" false 677 687;
    SFunction "testReadableFind" false 689 695;
    SFunction "testReadableStream" true 697 735;
    SFunction "testWritableStream" true 737 745;
    SFunction "testTransformStream" true 747 768;
    SFunction "testTransferringStreamWithPostMessage" true 771 789;
    (* lines 791-807 *)
    SBlock [ SConst (PVar "transform") None (new_ "Transform" []);
             SExpr (call_on
                      (call_on
                         (call_on
                            (call_on (EId "transform") "on"
                               [EStr "pipe"; EFun ["src"]])
                            "once" [EStr "unpipe"; EFun ["src"]])
                         "addListener" [EStr "data"; EFun ["chunk"]])
                      "prependOnceListener" [EStr "error"; EFun ["err"]]) ];
    (* lines 809-830 *)
    SBlock [ SLet "byobReader"
               (call_on
                  (call_on (new_ "Blob" [EArr [EStr "1"; EStr "2"]]) "stream" [])
                  "getReader" [EObj [("mode", EStr "byob")]]);
             SAssign "byobReader"
               (new_ "ReadableStreamBYOBReader"
                  [call_on (new_ "Blob" [EArr []]) "stream" []]);
             SExpr (call_on (EId "byobReader") "cancel" []);
             SExpr (call_on (EId "byobReader") "cancel" [EStr "reason"]);
             SExpr (EMember (EId "byobReader") "closed");
             SExpr (call_on (EId "byobReader") "read" [new_ "Uint8Array" []]);
             SExpr (call_on (EId "byobReader") "read"
                      [new_ "Uint8Array" []; EObj []]);
             SExpr (call_on (EId "byobReader") "read"
                      [new_ "Uint8Array" []; EObj [("min", ENum 1)]]);
             SExpr (call_on (EId "byobReader") "releaseLock" []) ] ].

Definition file : source_file := SourceFile "unnamed/part_000" false body.

End stream_test.

(** The files of the two declaration sets. *)
Definition stream_set : list source_file := [stream_test.file].
Definition renderer_set : list source_file :=
  [WebGLRenderer_d_ts.file; Lut3DNode_d_ts.file].
Definition repository : list source_file := stream_set ++ renderer_set.

(** ** Reading a declaration *)

Definition class_fields (ms : list member) : list (string * ty) :=
  flat_map (fun m => match m with MField n _ t => [(n, t)] | _ => [] end) ms.

Definition class_ctors (ms : list member) : list (list param) :=
  flat_map (fun m => match m with MCtor ps => [ps] | _ => [] end) ms.

(** Methods and accessors, by name. *)
Definition class_methods (ms : list member) : list string :=
  flat_map (fun m => match m with
                     | MMethod n _ _ | MGetter n _ | MSetter n _ => [n]
                     | _ => []
                     end) ms.

(** The overloads a class declares for a method name. *)
Definition method_sigs (ms : list member) (name : string)
  : list (list param * ty) :=
  flat_map (fun m => match m with
                     | MMethod n ps r => if String.eqb n name then [(ps, r)] else []
                     | _ => []
                     end) ms.

(** The signatures under which a member can be called: those of the methods
    of that name, and that of a property of that name whose type is a
    function type and which is not optional. *)
Definition callable_sigs (ms : list member) (name : string)
  : list (list param * ty) :=
  flat_map (fun m => match m with
                     | MMethod n ps r => if String.eqb n name then [(ps, r)] else []
                     | MField n false (TFun ps r) =>
                         if String.eqb n name then [(ps, r)] else []
                     | _ => []
                     end) ms.

Fixpoint find_class_in (ss : list stmt) (name : string) : option (list member) :=
  match ss with
  | [] => None
  | SClass n _ ms :: r => if String.eqb n name then Some ms else find_class_in r name
  | _ :: r => find_class_in r name
  end.

Definition find_class (f : source_file) (name : string) : option (list member) :=
  find_class_in (body f) name.

Fixpoint find_heritage_in (ss : list stmt) (name : string) : option (option ty) :=
  match ss with
  | [] => None
  | SClass n h _ :: r => if String.eqb n name then Some h else find_heritage_in r name
  | _ :: r => find_heritage_in r name
  end.

Fixpoint find_const_in (ss : list stmt) (name : string) : option ty :=
  match ss with
  | [] => None
  | SDeclConst n t :: r => if String.eqb n name then Some t else find_const_in r name
  | _ :: r => find_const_in r name
  end.

Definition find_const (f : source_file) (name : string) : option ty :=
  find_const_in (body f) name.

(** The type a class gives to a field, and the type its first constructor
    gives to a parameter of that name. *)
Definition field_type (ms : list member) (name : string) : option ty :=
  option_map snd (find (fun p => String.eqb (fst p) name) (class_fields ms)).

Definition ctor_param_type (ms : list member) (name : string) : option ty :=
  match class_ctors ms with
  | ps :: _ => option_map ptype (find (fun p => String.eqb (pname p) name) ps)
  | [] => None
  end.

(** ** Imports and what a file declares *)

Definition import_specifiers (f : source_file) : list string :=
  flat_map (fun s => match s with SImport _ from => [from] | _ => [] end) (body f).

(** The names an import asks of the imported module ([*] and [require] ask
    for the module as a whole). *)
Definition imported_names (f : source_file) : list string :=
  flat_map (fun s => match s with
                     | SImport (Named bs) _ => map fst bs
                     | _ => []
                     end) (body f).

Definition declared_names (f : source_file) : list string :=
  flat_map (fun s => match s with
                     | SInterface n _ _ | SClass n _ _ | SDeclConst n _
                     | SFunction n _ _ _ => [n]
                     | _ => []
                     end) (body f).

Definition function_names (ss : list stmt) : list string :=
  flat_map (fun s => match s with SFunction n _ _ _ => [n] | _ => [] end) ss.

Definition mem_string (x : string) (l : list string) : bool :=
  existsb (String.eqb x) l.

Definition disjoint (l1 l2 : list string) : bool :=
  forallb (fun x => negb (mem_string x l2)) l1.

(** ** Module resolution *)

(** The segments of a path: [split_on "/" "a/b"] is [["a"; "b"]]. *)
Fixpoint split_on (c : ascii) (s : string) : list string :=
  match s with
  | EmptyString => [EmptyString]
  | String a r =>
      if Ascii.eqb a c then EmptyString :: split_on c r
      else match split_on c r with
           | [] => [String a EmptyString]
           | h :: t => String a h :: t
           end
  end.

Definition slash : ascii := "/"%char.

(** Removes [.] and empty segments and lets [..] drop the segment before it;
    [stack] holds the segments kept so far, last first.  A path that climbs
    above the root of the repository has no normal form. *)
Fixpoint normalise (stack segs : list string) : option (list string) :=
  match segs with
  | [] => Some (rev stack)
  | seg :: r =>
      if String.eqb seg "." || String.eqb seg "" then normalise stack r
      else if String.eqb seg ".." then
        match stack with
        | [] => None
        | _ :: up => normalise up r
        end
      else normalise (seg :: stack) r
  end.

Definition strip_suffix (suf s : string) : option string :=
  let n := String.length s - String.length suf in
  if Nat.leb (String.length suf) (String.length s)
     && String.eqb (substring n (String.length suf) s) suf
  then Some (substring 0 n s) else None.

(** A [.js] specifier in a declaration file stands for the declaration file
    next to that script. *)
Definition declaration_of (file_path : string) : string :=
  match strip_suffix ".js" file_path with
  | Some stem => stem ++ ".d.ts"
  | None => file_path
  end.

Inductive target : Type :=
| Builtin (module : string)     (* node:... , part of the Node runtime *)
| Package (pkg : string)        (* bare specifier: an installed package *)
| RepoFile (file_path : string) (* relative specifier: a file of this tree *)
| Outside.                      (* relative specifier leaving the tree *)

Definition is_relative (spec : string) : bool :=
  prefix "./" spec || prefix "../" spec
  || String.eqb spec "." || String.eqb spec "..".

(** The package a bare specifier names: its first segment, or the first two
    for a scoped package. *)
Definition package_name (spec : string) : string :=
  match split_on slash spec with
  | scope :: name :: _ => if prefix "@" scope then scope ++ "/" ++ name else scope
  | scope :: _ => scope
  | [] => spec
  end.

Definition resolve (importer spec : string) : target :=
  if prefix "node:" spec then Builtin spec
  else if is_relative spec then
    match normalise (rev (removelast (split_on slash importer)))
                    (split_on slash spec) with
    | Some segs => RepoFile (declaration_of (String.concat "/" segs))
    | None => Outside
    end
  else Package (package_name spec).

Definition targets (f : source_file) : list target :=
  map (resolve (path f)) (import_specifiers f).

(** External library modules: the runtime's own and installed packages. *)
Definition is_external (t : target) : bool :=
  match t with
  | Builtin _ | Package _ => true
  | RepoFile _ | Outside => false
  end.

(** In this tree the typings of package [p] live under [types/p/]. *)
Definition package_of_path (file_path : string) : option string :=
  match split_on slash file_path with
  | root :: p :: _ :: _ => if String.eqb root "types" then Some p else None
  | _ => None
  end.

(** Whether an import target can be the file [f]: the file itself, or the
    package whose typings [f] belongs to. *)
Definition reaches (t : target) (f : source_file) : bool :=
  match t with
  | RepoFile p => String.eqb p (path f)
  | Package p =>
      match package_of_path (path f) with
      | Some q => String.eqb p q
      | None => false
      end
  | Builtin _ | Outside => false
  end.

(** No import of a file of [from] can reach a file of [to], and no file of
    [from] imports a name that a file of [to] declares.  The three files are
    modules: what one declares is visible in another through an import
    only. *)
Definition independent_of (from to : list source_file) : bool :=
  forallb (fun a =>
    forallb (fun b =>
      forallb (fun t => negb (reaches t b)) (targets a)
      && disjoint (imported_names a) (declared_names b)) to) from.

(** ** Loading a file as a module *)

(** What loading can be observed to do: calling, or constructing with, a
    function the module does not define itself. *)
Inductive event : Type :=
| EvCall (callee : string) (nargs : nat)
| EvNew (class : string) (nargs : nat).

(** The callee of a call, as written. *)
Fixpoint show (e : expr) : string :=
  match e with
  | EId x => x
  | EStr s => s
  | ENum _ => "<number>"
  | EBool _ => "<boolean>"
  | EArr _ => "<array>"
  | EObj _ => "<object>"
  | EFun _ => "<function>"
  | EMember o f => show o ++ "." ++ f
  | ECall c _ => show c ++ "()"
  | ENew c _ => "new " ++ show c ++ "()"
  end.

(** How a load ends: all statements done, or a call that threw. *)
Inductive ending : Type :=
| Finished
| Threw.

(** Whether a call or a construction throws is decided by the function
    called, which is no part of these files.  It is a parameter of the
    load: told what was done so far and what is attempted, it says whether
    the attempt throws. *)
Definition outcomes : Type := list event -> event -> bool.

(** Whether an expression mentions one of [names]. *)
Fixpoint mentions (names : list string) (e : expr) : bool :=
  match e with
  | EId x => mem_string x names
  | EStr _ | ENum _ | EBool _ | EFun _ => false
  | EArr es => existsb (mentions names) es
  | EObj ps => existsb (fun kv => mentions names (snd kv)) ps
  | EMember o _ => mentions names o
  | ECall c args | ENew c args =>
      mentions names c || existsb (mentions names) args
  end.

Fixpoint stmt_mentions (names : list string) (s : stmt) : bool :=
  match s with
  | SConst _ _ e | SLet _ e | SAssign _ e | SExpr e => mentions names e
  | SBlock b => existsb (stmt_mentions names) b
  | _ => false
  end.

Section Load.

Variable throws : outcomes.

(** One call or construction, after [done]: it is performed, and ends the
    load if it throws. *)
Definition attempt (done : list event) (ev : event) : list event * ending :=
  ([ev], if throws done ev then Threw else Finished).

(** [first], and then [next] unless [first] threw; [next] is told what was
    done before it. *)
Definition and_then (done : list event) (first : list event * ending)
           (next : list event -> list event * ending) : list event * ending :=
  match first with
  | (t1, Finished) => let (t2, e2) := next (done ++ t1)%list in ((t1 ++ t2)%list, e2)
  | (t1, Threw) => (t1, Threw)
  end.

(** The calls and constructions that evaluating an expression performs: the
    callee first, then the arguments from left to right, then the call
    itself; nothing after a call that throws. *)
Fixpoint eval (done : list event) (e : expr) : list event * ending :=
  match e with
  | EId _ | EStr _ | ENum _ | EBool _ | EFun _ => ([], Finished)
  | EArr es =>
      (fix go (done : list event) (l : list expr) : list event * ending :=
         match l with
         | [] => ([], Finished)
         | x :: r => and_then done (eval done x) (fun done' => go done' r)
         end) done es
  | EObj ps =>
      (fix go (done : list event) (l : list (string * expr))
         : list event * ending :=
         match l with
         | [] => ([], Finished)
         | (_, x) :: r => and_then done (eval done x) (fun done' => go done' r)
         end) done ps
  | EMember o _ => eval done o
  | ECall c args =>
      and_then done (eval done c) (fun done1 =>
      and_then done1
        ((fix go (done : list event) (l : list expr) : list event * ending :=
            match l with
            | [] => ([], Finished)
            | x :: r => and_then done (eval done x) (fun done' => go done' r)
            end) done1 args)
        (fun done2 => attempt done2 (EvCall (show c) (length args))))
  | ENew c args =>
      and_then done (eval done c) (fun done1 =>
      and_then done1
        ((fix go (done : list event) (l : list expr) : list event * ending :=
            match l with
            | [] => ([], Finished)
            | x :: r => and_then done (eval done x) (fun done' => go done' r)
            end) done1 args)
        (fun done2 => attempt done2 (EvNew (show c) (length args))))
  end.

(** Declarations (imports, interfaces, classes of signatures, ambient
    constants, functions) run nothing; the other statements evaluate their
    expression. *)
Fixpoint exec (done : list event) (s : stmt) : list event * ending :=
  match s with
  | SImport _ _ | SInterface _ _ _ | SClass _ _ _ | SExportDefault _
  | SDeclConst _ _ | SFunction _ _ _ _ => ([], Finished)
  | SConst _ _ e | SLet _ e | SAssign _ e | SExpr e => eval done e
  | SBlock b =>
      (fix go (done : list event) (l : list stmt) : list event * ending :=
         match l with
         | [] => ([], Finished)
         | x :: r => and_then done (exec done x) (fun done' => go done' r)
         end) done b
  end.

Fixpoint exec_all (done : list event) (ss : list stmt) : list event * ending :=
  match ss with
  | [] => ([], Finished)
  | s :: r => and_then done (exec done s) (fun done' => exec_all done' r)
  end.

(** Loading a file: what it performs and how it ends.  The bodies of the
    functions a module declares are not part of this embedding, so a file
    whose statements mention one of them has no result here. *)
Definition run (f : source_file) : option (list event * ending) :=
  if existsb (stmt_mentions (function_names (body f))) (body f) then None
  else Some (exec_all [] (body f)).

End Load.

Definition is_declaration (s : stmt) : bool :=
  match s with
  | SImport _ _ | SInterface _ _ _ | SClass _ _ _ | SExportDefault _
  | SDeclConst _ _ | SFunction _ _ _ _ => true
  | _ => false
  end.

(** ** Assignability and calls *)

Fixpoint ty_eqb (a b : ty) {struct a} : bool :=
  match a, b with
  | TAny, TAny | TUnknown, TUnknown | TVoid, TVoid | TNull, TNull
  | TUndefined, TUndefined | TNumber, TNumber | TString, TString
  | TBoolean, TBoolean => true
  | TRef n xs, TRef m ys =>
      String.eqb n m
      && (fix go (l1 l2 : list ty) : bool :=
            match l1, l2 with
            | [], [] => true
            | x :: r1, y :: r2 => ty_eqb x y && go r1 r2
            | _, _ => false
            end) xs ys
  | TUnion xs, TUnion ys =>
      (fix go (l1 l2 : list ty) : bool :=
         match l1, l2 with
         | [], [] => true
         | x :: r1, y :: r2 => ty_eqb x y && go r1 r2
         | _, _ => false
         end) xs ys
  | TArray x, TArray y => ty_eqb x y
  | TFun ps r, TFun qs s =>
      (fix go (l1 l2 : list param) : bool :=
         match l1, l2 with
         | [], [] => true
         | x :: r1, y :: r2 => param_eqb x y && go r1 r2
         | _, _ => false
         end) ps qs
      && ty_eqb r s
  | TTypeof n, TTypeof m => String.eqb n m
  | _, _ => false
  end
with param_eqb (p q : param) {struct p} : bool :=
  match p, q with
  | Param n o t, Param m o' t' => String.eqb n m && Bool.eqb o o' && ty_eqb t t'
  end.

(** A property of an object type: name, whether it may be absent, type. *)
Record property : Type := Property {
  prop_name : string;
  prop_optional : bool;
  prop_type : ty
}.

(** What a class or interface declaration says, for assignability: its type
    parameters, the type it extends, and the properties it adds. *)
Record class_info : Type := ClassInfo {
  tparams : list string;
  parent : option ty;
  own : list property
}.

(** Replaces type parameters by type arguments. *)
Fixpoint subst (sigma : list (string * ty)) (t : ty) {struct t} : ty :=
  match t with
  | TRef n [] =>
      match find (fun b => String.eqb (fst b) n) sigma with
      | Some b => snd b
      | None => t
      end
  | TRef n args => TRef n (map (subst sigma) args)
  | TUnion alts => TUnion (map (subst sigma) alts)
  | TArray e => TArray (subst sigma e)
  | TFun ps r =>
      TFun (map (fun p => match p with
                          | Param n o pt => Param n o (subst sigma pt)
                          end) ps)
           (subst sigma r)
  | _ => t
  end.

Definition find_property (n : string) (ps : list property) : option property :=
  find (fun p => String.eqb (prop_name p) n) ps.

Section Checker.

(** The declarations behind the imported type names.  The files that hold
    them ([three/webgpu], [../math/Vector4.js], ...) are not part of the
    sources at hand, so the table is a parameter. *)
Variable ct : string -> option class_info.

(** The properties of a class type: its own, then those of the type it
    extends that it does not redeclare.  [None] for a type the table does
    not describe, or when [fuel] does not cover the chain of parents. *)
Fixpoint properties_of (fuel : nat) (t : ty) : option (list property) :=
  match fuel with
  | 0 => None
  | S fuel' =>
      match t with
      | TRef n args =>
          match ct n with
          | None => None
          | Some ci =>
              let sigma := combine (tparams ci) args in
              let mine :=
                map (fun p => Property (prop_name p) (prop_optional p)
                                       (subst sigma (prop_type p))) (own ci) in
              match parent ci with
              | None => Some mine
              | Some sup =>
                  match properties_of fuel' (subst sigma sup) with
                  | None => None
                  | Some inherited =>
                      Some (mine ++
                            filter (fun p =>
                                      match find_property (prop_name p) mine with
                                      | Some _ => false
                                      | None => true
                                      end) inherited)%list
                  end
              end
          end
      | _ => None
      end
  end.

(** Whether a value of type [s] may be used where [t] is expected.
    Identical types always may; [any] goes both ways and [unknown] takes
    everything; a union source needs every alternative accepted, a union
    target one alternative accepting; [undefined] fits [void]; arrays
    compare their elements; class types compare structurally, property by
    property.  Types outside this fragment are compared by identity
    only. *)
Fixpoint assignable (fuel : nat) (s t : ty) {struct fuel} : bool :=
  match fuel with
  | 0 => false
  | S fuel' =>
      if ty_eqb s t then true
      else match s, t with
      | TAny, _ => true
      | _, TAny => true
      | _, TUnknown => true
      | TUnion ss, _ => forallb (fun s' => assignable fuel' s' t) ss
      | _, TUnion ts => existsb (fun t' => assignable fuel' s t') ts
      | TUndefined, TVoid => true
      | TArray a, TArray b => assignable fuel' a b
      | TRef _ _, TRef _ _ =>
          match properties_of fuel' s, properties_of fuel' t with
          | Some have, Some want =>
              forallb (fun w =>
                match find_property (prop_name w) have with
                | Some h =>
                    implb (prop_optional h) (prop_optional w)
                    && assignable fuel' (prop_type h) (prop_type w)
                | None => prop_optional w
                end) want
          | _, _ => false
          end
      | _, _ => false
      end
  end.

(** An optional parameter also takes [undefined]. *)
Definition param_type (p : param) : ty :=
  if optional p then TUnion [ptype p; TUndefined] else ptype p.

(** The least number of arguments: up to the last required parameter. *)
Fixpoint min_args (ps : list param) : nat :=
  match ps with
  | [] => 0
  | p :: r =>
      match min_args r with
      | 0 => if optional p then 0 else 1
      | S m => S (S m)
      end
  end.

(** Each argument fits the parameter at its position; no argument beyond
    the last parameter. *)
Fixpoint args_fit (fuel : nat) (ps : list param) (args : list ty) : bool :=
  match args, ps with
  | [], _ => true
  | a :: ar, p :: pr => assignable fuel a (param_type p) && args_fit fuel pr ar
  | _ :: _, [] => false
  end.

Definition call_ok (fuel : nat) (ps : list param) (args : list ty) : bool :=
  Nat.leb (min_args ps) (length args) && args_fit fuel ps args.

(** The result type of calling member [name] with arguments of the types
    [args]: that of the first signature that takes them; [None] when the
    call is rejected. *)
Definition call_type (fuel : nat) (ms : list member) (name : string)
           (args : list ty) : option ty :=
  option_map snd
    (find (fun sig => call_ok fuel (fst sig) args) (callable_sigs ms name)).

End Checker.

(** Enough for every type expression of the three files. *)
Definition depth : nat := 16.

(** ** What the statements below are about *)

(** The types the constructor gives its parameters, and the types of the
    fields of the same names. *)
Definition ctor_param_types (ms : list member) : list (string * ty) :=
  match class_ctors ms with
  | ps :: _ => map (fun p => (pname p, ptype p)) ps
  | [] => []
  end.

Definition viewport_params : list param :=
  [ req "x" (TUnion [named "Vector4"; TNumber]);
    opt "y" TNumber; opt "width" TNumber; opt "height" TNumber ].

(** Loading the file does nothing that can be observed, whatever the
    functions outside it do. *)
Definition equivalent_to_empty (f : source_file) : Prop :=
  forall throws : outcomes, run throws f = Some ([], Finished).

(** The statements of the test module, from line 547 on, that follow its
    imports and its first ten functions. *)
Definition from_line_547 : list stmt := skipn 24 stream_test.body.

(** Every import of the file names an external library module. *)
Definition imports_only_external (f : source_file) : Prop :=
  forall t, In t (targets f) -> is_external t = true.

Definition is_builtin (t : target) : bool :=
  match t with Builtin _ => true | _ => false end.

Definition is_file_under (dir : string) (t : target) : bool :=
  match t with RepoFile p => prefix dir p | _ => false end.

(** ** Members, signatures and names of a declaration *)

Definition method_names (ms : list member) : list string :=
  flat_map (fun m => match m with MMethod n _ _ => [n] | _ => [] end) ms.

Definition getters (ms : list member) : list (string * ty) :=
  flat_map (fun m => match m with MGetter n t => [(n, t)] | _ => [] end) ms.

Definition setters (ms : list member) : list (string * ty) :=
  flat_map (fun m => match m with MSetter n p => [(n, ptype p)] | _ => [] end) ms.

(** One entry for each property or method a class declares; a setter shares
    the entry of its getter. *)
Definition member_names (ms : list member) : list string :=
  flat_map (fun m => match m with
                     | MField n _ _ | MMethod n _ _ | MGetter n _ => [n]
                     | MSetter _ _ | MCtor _ => []
                     end) ms.

(** What can be read from an instance, and what can be assigned to: fields
    and methods both ways, an accessor as far as it has a getter or a
    setter. *)
Definition readable_names (ms : list member) : list string :=
  flat_map (fun m => match m with
                     | MField n _ _ | MMethod n _ _ | MGetter n _ => [n]
                     | _ => []
                     end) ms.

Definition assignable_names (ms : list member) : list string :=
  flat_map (fun m => match m with
                     | MField n _ _ | MMethod n _ _ | MSetter n _ => [n]
                     | _ => []
                     end) ms.

Fixpoint distinct (l : list string) : bool :=
  match l with
  | [] => true
  | x :: r => negb (mem_string x r) && distinct r
  end.

(** Each name once, in the order of first occurrence. *)
Fixpoint dedup (seen l : list string) : list string :=
  match l with
  | [] => []
  | x :: r => if mem_string x seen then dedup seen r else x :: dedup (x :: seen) r
  end.

(** The parameter lists written inside a type: those of its function
    types, at any depth. *)
Fixpoint ty_signatures (t : ty) : list (list param) :=
  match t with
  | TRef _ args => flat_map ty_signatures args
  | TUnion alts => flat_map ty_signatures alts
  | TArray e => ty_signatures e
  | TFun ps r =>
      ps :: (flat_map (fun p => match p with
                                | Param _ _ pt => ty_signatures pt
                                end) ps
             ++ ty_signatures r)%list
  | _ => []
  end.

Definition params_signatures (ps : list param) : list (list param) :=
  ps :: flat_map (fun p => ty_signatures (ptype p)) ps.

Definition member_signatures (m : member) : list (list param) :=
  match m with
  | MField _ _ t | MGetter _ t => ty_signatures t
  | MCtor ps => params_signatures ps
  | MMethod _ ps r => (params_signatures ps ++ ty_signatures r)%list
  | MSetter _ p => params_signatures [p]
  end.

(** Every parameter list of a file: constructors, methods, setters and the
    function types inside any member or constant. *)
Definition file_signatures (f : source_file) : list (list param) :=
  flat_map (fun s => match s with
                     | SInterface _ _ ms | SClass _ _ ms =>
                         flat_map member_signatures ms
                     | SDeclConst _ t => ty_signatures t
                     | _ => []
                     end) (body f).

(** Once a parameter is optional, so are all that follow. *)
Fixpoint optional_trailing (ps : list param) : bool :=
  match ps with
  | [] => true
  | p :: r => (if optional p then forallb optional r else true)
              && optional_trailing r
  end.

Definition required_count (ps : list param) : nat :=
  length (filter (fun p => negb (optional p)) ps).

(** The type names a type mentions ([typeof x] mentions [x]). *)
Fixpoint ty_names (t : ty) : list string :=
  match t with
  | TRef n args => n :: flat_map ty_names args
  | TUnion alts => flat_map ty_names alts
  | TArray e => ty_names e
  | TFun ps r =>
      (flat_map (fun p => match p with
                          | Param _ _ pt => ty_names pt
                          end) ps
       ++ ty_names r)%list
  | TTypeof n => [n]
  | _ => []
  end.

Definition params_names (ps : list param) : list string :=
  flat_map (fun p => ty_names (ptype p)) ps.

Definition member_type_names (m : member) : list string :=
  match m with
  | MField _ _ t | MGetter _ t => ty_names t
  | MCtor ps => params_names ps
  | MMethod _ ps r => (params_names ps ++ ty_names r)%list
  | MSetter _ p => ty_names (ptype p)
  end.

(** The names a file mentions in its declarations, in order: heritage
    clauses, member types, constant types and the default export. *)
Definition mentioned_names (f : source_file) : list string :=
  flat_map (fun s => match s with
                     | SInterface _ ext ms =>
                         (flat_map ty_names ext ++ flat_map member_type_names ms)%list
                     | SClass _ ext ms =>
                         (match ext with Some t => ty_names t | None => [] end
                          ++ flat_map member_type_names ms)%list
                     | SDeclConst _ t => ty_names t
                     | SExportDefault n => [n]
                     | _ => []
                     end) (body f).

(** The names the imports of a file bring into scope. *)
Definition local_names (f : source_file) : list string :=
  flat_map (fun s => match s with
                     | SImport (Named bs) _ => map snd bs
                     | SImport (Namespace n) _ | SImport (RequireEq n) _ => [n]
                     | _ => []
                     end) (body f).

(** Imports nothing mentions. *)
Definition unused_imports (f : source_file) : list string :=
  filter (fun n => negb (mem_string n (mentioned_names f))) (local_names f).

(** Names mentioned that are neither imported nor declared by the file:
    they can only come from the ambient libraries. *)
Definition ambient_names (f : source_file) : list string :=
  dedup [] (filter (fun n => negb (mem_string n (local_names f))
                             && negb (mem_string n (declared_names f)))
                   (mentioned_names f)).

(** The methods of a class whose name begins with [pre]. *)
Definition methods_named (pre : string) (ms : list member)
  : list (string * list param * ty) :=
  flat_map (fun m => match m with
                     | MMethod n ps r => if prefix pre n then [(n, ps, r)] else []
                     | _ => []
                     end) ms.

(** The interfaces and classes a file declares, with their members. *)
Definition declared_members (f : source_file) : list (string * list member) :=
  flat_map (fun s => match s with
                     | SInterface n _ ms | SClass n _ ms => [(n, ms)]
                     | _ => []
                     end) (body f).

(** The declaration files of the renderer set, taken together. *)
Definition renderer_declarations : list (string * list member) :=
  flat_map declared_members renderer_set.

Definition renderer_signatures : list (list param) :=
  flat_map file_signatures renderer_set.

(** The properties of a class that can be called: those that are not
    optional and whose type is a function type. *)
Definition function_typed_properties (ms : list member) : list string :=
  flat_map (fun m => match m with
                     | MField n false (TFun _ _) => [n]
                     | _ => []
                     end) ms.

(** The constructor parameters whose type is not written as the type of the
    field of the same name. *)
Definition written_differently (ms : list member) : list string :=
  flat_map (fun p => match field_type ms (fst p) with
                     | Some t => if ty_eqb (snd p) t then [] else [fst p]
                     | None => [fst p]
                     end) (ctor_param_types ms).

(** ** The test module in full *)

(** The first embedding of the test module keeps each function by its lines
    only.  This one keeps the bodies too, with the type-test directives
    ([$ExpectType], [@ts-expect-error]) that stand in comments. *)

Inductive binder : Type :=
| BVar (x : string)
| BArr (xs : list string)     (* const [a, b] = ... *)
| BObj (xs : list string).    (* const { a, b } = ... *)

Inductive decl_kind : Type :=
| Const
| Let
| LetDefinite.                (* let x!: T; *)

Inductive fshape : Type :=
| Declared                    (* function f(...) { } *)
| FunctionExpr                (* function(...) { } as a value *)
| Arrow                       (* (...) => ... *)
| MethodDef.                  (* f(...) { } inside an object literal *)

Record fparam : Type := FParam {
  fp_name : string;
  fp_optional : bool;
  fp_annot : option ty
}.

Inductive term : Type :=
| Id (x : string)
| This
| Str (s : string)
| Num (n : nat)
| BoolLit (b : bool)
| NullLit
| Arr (elems : list term)
| Obj (props : list prop)
| Fn (f : func)
| Member (obj : term) (field : string)          (* obj.field *)
| Index (obj index : term)                      (* obj[index] *)
| Call (callee : term) (args : list term)
| New (ctor : term) (targs : list ty) (args : list term)
| Await (e : term)
| Yield (e : term)
| As (e : term) (t : ty)                        (* e as T *)
| Bin (op : string) (l r : term)
| Un (op : string) (e : term)
| PostIncr (e : term)                           (* e++ *)
| Assign (target value : term)                  (* target = value *)
with prop : Type :=
| Init (key : string) (value : term)            (* key: value *)
| Short (name : string)                         (* { name } *)
| Method (key : string) (f : func)              (* key(...) { } *)
| ComputedMethod (key : term) (f : func)        (* [key](...) { } *)
with func : Type :=
| Func (shape : fshape) (is_async is_generator : bool)
       (params : list fparam) (body : cmd)
with cmd : Type :=
| Expr (e : term)                               (* e; *)
| Decl (k : decl_kind) (b : binder) (annot : option ty) (init : option term)
| For (init : cmd) (cond update : term) (body : cmd)
| ForOf (awaited : bool) (x : string) (iter : term) (body : cmd)
| Return (e : term)
| Block (body : list cmd)
| ExpectType (alts : list string)       (* // $ExpectType a || b, on its own line *)
| ExpectTypeOfLine (alts : list string) (* the same, ending the line of a statement *)
| ExpectError (note : string)           (* // @ts-expect-error note *)
| FunctionDecl (name : string) (f : func)
| ImportDecl (clause : import_clause) (from : string).

Module stream_test_full.

(** Shorthands for the shapes that recur. *)
Definition p (x : string) : fparam := FParam x false None.
Definition pt (x : string) (t : ty) : fparam := FParam x false (Some t).
Definition call (f : string) (args : list term) : term := Call (Id f) args.
Definition dot (o f : string) : term := Member (Id o) f.
Definition mcall (o : term) (m : string) (args : list term) : term :=
  Call (Member o m) args.
Definition new_ (c : string) (args : list term) : term := New (Id c) [] args.
Definition method (k : string) (ps : list string) (b : list cmd) : prop :=
  Method k (Func MethodDef false false (map p ps) (Block b)).
Definition arrow (ps : list fparam) (b : list cmd) : term :=
  Fn (Func Arrow false false ps (Block b)).
Definition arrow_e (ps : list fparam) (e : term) : term :=
  Fn (Func Arrow false false ps (Expr e)).
Definition async_arrow (ps : list fparam) (b : list cmd) : term :=
  Fn (Func Arrow true false ps (Block b)).
Definition async_gen (ps : list fparam) (b : list cmd) : term :=
  Fn (Func FunctionExpr true true ps (Block b)).
Definition gen (ps : list fparam) (b : list cmd) : term :=
  Fn (Func FunctionExpr false true ps (Block b)).
Definition const (x : string) (e : term) : cmd := Decl Const (BVar x) None (Some e).
Definition expect (t : string) : cmd := ExpectType [t].
Definition fun_decl (name : string) (b : list cmd) : cmd :=
  FunctionDecl name (Func Declared false false [] (Block b)).
Definition async_fun_decl (name : string) (b : list cmd) : cmd :=
  FunctionDecl name (Func Declared true false [] (Block b)).

Definition stdin : term := dot "process" "stdin".
Definition stdout_ : term := dot "process" "stdout".
Definition callback_type : string := "(error?: Error | null | undefined) => void".
Definition chunks_type : string := "{ chunk: any; encoding: BufferEncoding; }[]".
Definition err_param : fparam := FParam "err" true (Some (TUnion [named "Error"; TNull])).
Definition async_iterable_string : ty := TRef "AsyncIterable" [TString].

(* lines 28-206 *)
Definition simplified_stream_ctor_test : cmd :=
  fun_decl "simplified_stream_ctor_test"
    [ Expr (new_ "Readable"
        [Obj [ method "construct" ["cb"]
                 [expect "Readable"; Expr This; Expr (call "cb" [])];
               method "read" ["size"]
                 [ expect "Readable"; Expr This;
                   expect "number"; Expr (Id "size") ];
               method "destroy" ["error"; "cb"]
                 [ expect "Error | null"; Expr (Id "error");
                   expect callback_type; Expr (Id "cb") ];
               Init "signal" (new_ "AbortSignal" []) ]]);
      Expr (new_ "Writable"
        [Obj [ method "construct" ["cb"]
                 [expect "Writable"; Expr This; Expr (call "cb" [])];
               method "write" ["chunk"; "enc"; "cb"]
                 [ expect "Writable"; Expr This;
                   expect "any"; Expr (Id "chunk");
                   expect "BufferEncoding"; Expr (Id "enc");
                   expect callback_type; Expr (Id "cb") ];
               method "writev" ["chunks"; "cb"]
                 [ expect "Writable"; Expr This;
                   expect chunks_type; Expr (Id "chunks");
                   expect callback_type; Expr (Id "cb") ];
               method "destroy" ["error"; "cb"]
                 [ expect "Writable"; Expr This;
                   expect "Error | null"; Expr (Id "error");
                   expect callback_type; Expr (Id "cb") ];
               method "final" ["cb"]
                 [ expect "Writable"; Expr This;
                   expect callback_type; Expr (Id "cb") ];
               Init "defaultEncoding" (Str "utf8");
               Init "signal" (new_ "AbortSignal" []) ]]);
      Expr (new_ "Duplex"
        [Obj [ method "construct" ["cb"]
                 [expect "Duplex"; Expr This; Expr (call "cb" [])];
               method "read" ["size"]
                 [ expect "Duplex"; Expr This;
                   expect "number"; Expr (Id "size") ];
               method "write" ["chunk"; "enc"; "cb"]
                 [ expect "Duplex"; Expr This;
                   expect "any"; Expr (Id "chunk");
                   expect "BufferEncoding"; Expr (Id "enc");
                   expect callback_type; Expr (Id "cb") ];
               method "writev" ["chunks"; "cb"]
                 [ expect "Duplex"; Expr This;
                   expect chunks_type; Expr (Id "chunks");
                   expect callback_type; Expr (Id "cb") ];
               method "destroy" ["error"; "cb"]
                 [ expect "Duplex"; Expr This;
                   expect "Error | null"; Expr (Id "error");
                   expect callback_type; Expr (Id "cb") ];
               method "final" ["cb"]
                 [ expect "Duplex"; Expr This;
                   expect callback_type; Expr (Id "cb") ];
               Init "readableObjectMode" (BoolLit true);
               Init "writableObjectMode" (BoolLit true);
               Init "readableHighWaterMark" (Num 2048);
               Init "writableHighWaterMark" (Num 1024) ]]);
      Expr (new_ "Transform"
        [Obj [ method "construct" ["cb"]
                 [expect "Transform"; Expr This; Expr (call "cb" [])];
               method "read" ["size"]
                 [ expect "Transform"; Expr This;
                   expect "number"; Expr (Id "size") ];
               method "write" ["chunk"; "enc"; "cb"]
                 [ expect "Transform"; Expr This;
                   expect "any"; Expr (Id "chunk");
                   expect "BufferEncoding"; Expr (Id "enc");
                   expect callback_type; Expr (Id "cb") ];
               method "writev" ["chunks"; "cb"]
                 [ expect "Transform"; Expr This;
                   expect chunks_type; Expr (Id "chunks");
                   expect callback_type; Expr (Id "cb") ];
               method "destroy" ["error"; "cb"]
                 [ expect "Transform"; Expr This;
                   expect "Error | null"; Expr (Id "error");
                   expect callback_type; Expr (Id "cb") ];
               method "final" ["cb"]
                 [ expect "Transform"; Expr This;
                   expect callback_type; Expr (Id "cb") ];
               method "transform" ["chunk"; "enc"; "cb"]
                 [ expect "Transform"; Expr This;
                   expect "any"; Expr (Id "chunk");
                   expect "BufferEncoding"; Expr (Id "enc");
                   expect "TransformCallback"; Expr (Id "cb") ];
               method "flush" ["cb"]
                 [ expect "TransformCallback"; Expr (Id "cb") ];
               Init "allowHalfOpen" (BoolLit true);
               Init "readableObjectMode" (BoolLit true);
               Init "writableObjectMode" (BoolLit true);
               Init "readableHighWaterMark" (Num 2048);
               Init "writableHighWaterMark" (Num 1024) ]]) ].

(* lines 208-219 *)
Definition streamPipelineFinished : cmd :=
  fun_decl "streamPipelineFinished"
    [ Decl Let (BVar "cancel") None
        (Some (call "finished" [stdin; arrow [err_param] []]));
      Expr (call "cancel" []);
      Expr (Assign (Id "cancel")
              (call "finished"
                 [ stdin;
                   Obj [ Init "readable" (BoolLit false);
                         Init "signal" (new_ "AbortSignal" []) ];
                   arrow [err_param] [] ]));
      Expr (call "cancel" []);
      Expr (call "pipeline" [stdin; stdout_; arrow [err_param] []]);
      Decl Const (BVar "http2ServerResponse") (Some (named "Http2ServerResponse"))
        (Some (As (Obj []) TAny));
      Expr (call "pipeline"
              [stdin; Id "http2ServerResponse"; arrow [err_param] []]) ].

(* lines 221-240 *)
Definition asyncStreamPipelineFinished : cmd :=
  async_fun_decl "asyncStreamPipelineFinished"
    [ const "fin" (call "promisify" [Id "finished"]);
      Expr (Await (call "fin" [stdin]));
      Expr (Await (call "fin" [stdin; Obj [Init "error" (BoolLit false)]]));
      Expr (Await (call "fin" [stdin; Obj [Init "readable" (BoolLit false)]]));
      Expr (Await (call "fin" [stdin; Obj [Init "writable" (BoolLit false)]]));
      Expr (Await (call "fin" [stdin; Obj [Init "signal" (new_ "AbortSignal" [])]]));
      ExpectError "-- callback version does not allow `options.cleanup`";
      Expr (Await (call "fin" [stdin; Obj [Init "cleanup" (BoolLit false)]]));
      Expr (Await (call "finishedPromise" [stdin]));
      Expr (Await (call "finishedPromise"
                     [stdin; Obj [Init "error" (BoolLit false)]]));
      Expr (Await (call "finishedPromise"
                     [stdin; Obj [Init "readable" (BoolLit false)]]));
      Expr (Await (call "finishedPromise"
                     [stdin; Obj [Init "writable" (BoolLit false)]]));
      Expr (Await (call "finishedPromise"
                     [stdin; Obj [Init "signal" (new_ "AbortSignal" [])]]));
      Expr (Await (call "finishedPromise"
                     [stdin; Obj [Init "cleanup" (BoolLit false)]]));
      const "pipe" (call "promisify" [Id "pipeline"]);
      Expr (Await (call "pipe" [stdin; stdout_])) ].

(** The transforms that recur in the pipeline tests. *)

(* async function*(source) { $ExpectType ReadStream & { fd: 0; }; source;
   source.setEncoding("utf8");
   for await (const chunk of source as AsyncIterable<string>) yield upper } *)
Definition upper_from_stdin : term :=
  async_gen [p "source"]
    [ expect "ReadStream & { fd: 0; }"; Expr (Id "source");
      Expr (mcall (Id "source") "setEncoding" [Str "utf8"]);
      ForOf true "chunk" (As (Id "source") async_iterable_string)
        (Block [Expr (Yield (mcall (Id "chunk") "toUpperCase" []))]) ].

(* async function*(source) { $ExpectType string; source;
   for (const chunk of source) yield upper } *)
Definition upper_from_string : term :=
  async_gen [p "source"]
    [ expect "string"; Expr (Id "source");
      ForOf false "chunk" (Id "source")
        (Block [Expr (Yield (mcall (Id "chunk") "toUpperCase" []))]) ].

(* the same without the directive *)
Definition upper_plain : term :=
  async_gen [p "source"]
    [ ForOf false "chunk" (Id "source")
        (Block [Expr (Yield (mcall (Id "chunk") "toUpperCase" []))]) ].

(* async function*(source: AsyncIterable<string>) { $ExpectType ...; source;
   for await (const chunk of source) console.log(chunk); yield null } *)
Definition log_annotated : term :=
  async_gen [pt "source" async_iterable_string]
    [ expect "AsyncIterable<string>"; Expr (Id "source");
      ForOf true "chunk" (Id "source")
        (Block [Expr (mcall (Id "console") "log" [Id "chunk"])]);
      Expr (Yield NullLit) ].

(* the same without the directive *)
Definition log_plain : term :=
  async_gen [pt "source" async_iterable_string]
    [ ForOf true "chunk" (Id "source")
        (Block [Expr (mcall (Id "console") "log" [Id "chunk"])]);
      Expr (Yield NullLit) ].

(* async (source: AsyncIterable<string>) => { return new Date(); } *)
Definition to_date : term :=
  async_arrow [pt "source" async_iterable_string]
    [Return (new_ "Date" [])].

(* function*() { for (let i = 0; i < 5; i++) { yield i; } } *)
Definition count_to_five : term :=
  gen []
    [ For (Decl Let (BVar "i") None (Some (Num 0)))
          (Bin "<" (Id "i") (Num 5)) (PostIncr (Id "i"))
          (Block [Expr (Yield (Id "i"))]) ].

(* async function*(source) { for [await] (const chunk of source) yield chunk + 3 } *)
Definition add_three (awaited : bool) : term :=
  async_gen [p "source"]
    [ ForOf awaited "chunk" (Id "source")
        (Block [Expr (Yield (Bin "+" (Id "chunk") (Num 3)))]) ].

(* async function*(source) { for await (const chunk of source) yield chunk.toFixed(3) } *)
Definition to_fixed : term :=
  async_gen [p "source"]
    [ ForOf true "chunk" (Id "source")
        (Block [Expr (Yield (mcall (Id "chunk") "toFixed" [Num 3]))]) ].

(* err => console.error(err) *)
Definition log_error : term :=
  arrow_e [p "err"] (mcall (Id "console") "error" [Id "err"]).

(* r => { $ExpectType t; r; } *)
Definition then_expect (t : string) : term :=
  arrow [p "r"] [expect t; Expr (Id "r")].

(* lines 243-336 *)
Definition streamPipelineAsyncTransform : cmd :=
  fun_decl "streamPipelineAsyncTransform"
    [ Expr (call "pipeline" [stdin; upper_from_stdin; stdout_; log_error]);
      Expr (call "pipeline" [Str "tasty"; upper_from_string;
                             log_annotated; log_error]);
      Expr (call "pipeline"
              [ Str "tasty"; upper_plain; to_date;
                arrow [p "err"; p "val"] [expect "Date"; Expr (Id "val")] ]);
      Expr (call "pipeline"
              [count_to_five; add_three true; to_fixed; stdout_; log_error]);
      Expr (call "pipeline"
              [ mcall (Arr [Num 1; Num 2; Num 3]) "values" [];
                add_three false; to_fixed; log_plain; log_error ]);
      Expr (call "pipeline"
              [mcall (Id "Buffer") "from" [Str "test"]; Id "stdout"; log_error]) ].

(* lines 338-405 *)
Definition streamPipelineAsyncPromiseTransform : cmd :=
  async_fun_decl "streamPipelineAsyncPromiseTransform"
    [ Expr (mcall (call "pipelinePromise" [stdin; upper_from_stdin; stdout_])
                  "then" [then_expect "void"]);
      Expr (mcall (call "pipelinePromise"
                     [Str "tasty"; upper_from_string; log_annotated])
                  "then" [then_expect "void"]);
      Expr (mcall (call "pipelinePromise" [Str "tasty"; upper_plain; to_date])
                  "then" [then_expect "Date"]);
      Expr (mcall (call "pipelinePromise"
                     [count_to_five; add_three true; to_fixed; stdout_])
                  "then" [then_expect "void"]) ].

(* { signal } *)
Definition signal_option : term := Obj [Short "signal"].

(* lines 407-482 *)
Definition streamPipelineAsyncPromiseAbortTransform : cmd :=
  async_fun_decl "streamPipelineAsyncPromiseAbortTransform"
    [ Decl Const (BObj ["signal"]) None (Some (new_ "AbortController" []));
      Expr (mcall (call "pipelinePromise"
                     [stdin; upper_from_stdin; stdout_; signal_option])
                  "then" [then_expect "void"]);
      Expr (mcall (call "pipelinePromise"
                     [Str "tasty"; upper_from_string; log_annotated; signal_option])
                  "then" [then_expect "void"]);
      Expr (mcall (call "pipelinePromise"
                     [Str "tasty"; upper_plain; to_date; signal_option])
                  "then" [then_expect "Date"]);
      Expr (mcall (call "pipelinePromise"
                     [ count_to_five; add_three true; to_fixed; stdout_;
                       signal_option ])
                  "then" [then_expect "void"]) ].

(* lines 484-501 *)
Definition streamPipelineAsyncPromiseOptions : cmd :=
  async_fun_decl "streamPipelineAsyncPromiseOptions"
    [ Decl Const (BObj ["signal"]) None (Some (new_ "AbortController" []));
      Expr (call "pipelinePromise" [stdin; stdout_; Obj []]);
      Expr (call "pipelinePromise" [stdin; stdout_; signal_option]);
      Expr (call "pipelinePromise"
              [stdin; stdout_; Obj [Init "end" (BoolLit false)]]);
      Expr (call "pipelinePromise"
              [stdin; stdout_; Obj [Short "signal"; Init "end" (BoolLit false)]]);
      Expr (call "pipelinePromise"
              [ stdin; stdout_;
                Obj [ Init "signal" (Id "undefined");
                      Init "end" (Id "undefined") ] ]) ].

(* lines 503-516 *)
Definition testConsumers : cmd :=
  async_fun_decl "testConsumers"
    [ Decl LetDefinite (BVar "consumable")
        (Some (TUnion [ named "ReadableStream"; named "Readable";
                        TRef "AsyncGenerator" [TAny] ]))
        None;
      expect "ArrayBuffer";
      Expr (Await (mcall (Id "consumers") "arrayBuffer" [Id "consumable"]));
      expect "Blob";
      Expr (Await (mcall (Id "consumers") "blob" [Id "consumable"]));
      ExpectType ["Buffer"; "Buffer<ArrayBufferLike>"];
      Expr (Await (mcall (Id "consumers") "buffer" [Id "consumable"]));
      expect "unknown";
      Expr (Await (mcall (Id "consumers") "json" [Id "consumable"]));
      expect "string";
      Expr (Await (mcall (Id "consumers") "text" [Id "consumable"])) ].

(* lines 519-539 *)
Definition stream_readable_pipe_test : cmd :=
  fun_decl "stream_readable_pipe_test"
    [ const "rs" (call "createReadStream"
                    [mcall (Id "Buffer") "from" [Str "file.txt"]]);
      const "r" (call "createReadStream" [Str "file.txt"]);
      const "z" (call "createGzip"
                   [Obj [Init "finishFlush" (dot "constants" "Z_FINISH")]]);
      const "w" (call "createWriteStream" [Str "file.txt.gz"]);
      Expr (call "assert"
              [Bin "===" (Un "typeof" (dot "z" "bytesRead")) (Str "number")]);
      Expr (call "assert"
              [Bin "===" (Un "typeof" (dot "r" "bytesRead")) (Str "number")]);
      Expr (call "assert"
              [Bin "===" (Un "typeof" (dot "r" "path")) (Str "string")]);
      Expr (call "assert" [Bin "instanceof" (dot "rs" "path") (Id "Buffer")]);
      Expr (mcall (mcall (Id "r") "pipe" [Id "z"]) "pipe" [Id "w"]);
      Expr (mcall (Id "z") "flush" []);
      Expr (mcall (Id "r") "close" []);
      Expr (mcall (Id "z") "close" []);
      Expr (mcall (Id "rs") "close" []);
      Expr (mcall (Id "rs") "destroy" []);
      Expr (Call (Index (Id "rs") (dot "Symbol" "asyncDispose")) []) ].

(* lines 541-545 *)
Definition stream_duplex_allowHalfOpen_test : cmd :=
  fun_decl "stream_duplex_allowHalfOpen_test"
    [ const "d" (new_ "Duplex" []);
      Expr (call "assert"
              [Bin "===" (Un "typeof" (dot "d" "allowHalfOpen")) (Str "boolean")]);
      Expr (Assign (dot "d" "allowHalfOpen") (BoolLit true)) ].

(* (prev, data) => prev * data *)
Definition product : term :=
  arrow_e [p "prev"; p "data"] (Bin "*" (Id "prev") (Id "data")).

(* lines 677-687 *)
Definition testReadableReduce : cmd :=
  fun_decl "testReadableReduce"
    [ const "readable" (mcall (Id "Readable") "from" [Arr []]);
      expect "Promise<number>";
      Expr (mcall (Id "readable") "reduce" [product]);
      expect "Promise<number>";
      Expr (mcall (Id "readable") "reduce" [product; Num 1]);
      ExpectError "when specifying an initial value, its type must be consistent with the reducer's return type";
      Expr (mcall (Id "readable") "reduce" [product; Str "1"]);
      ExpectError "when specifying an initial value, its type must be consistent with the reducer's first argument";
      Expr (mcall (Id "readable") "reduce"
              [ arrow_e [pt "prev" TString; p "data"]
                  (Bin "*" (Un "+" (Id "prev")) (Id "data"));
                Num 1 ]) ].

(* lines 689-695 *)
Definition testReadableFind : cmd :=
  fun_decl "testReadableFind"
    [ const "readable" (mcall (Id "Readable") "from" [Arr []]);
      expect "Promise<any>";
      Expr (mcall (Id "readable") "find" [Id "Boolean"]);
      expect "Promise<any[] | undefined>";
      Expr (mcall (Id "readable") "find" [dot "Array" "isArray"]) ].

(* lines 697-735 *)
Definition testReadableStream : cmd :=
  async_fun_decl "testReadableStream"
    [ const "SECOND" (Num 1000);
      const "stream"
        (New (Id "ReadableStream") [TNumber]
           [Obj [ Method "start"
                    (Func MethodDef true false [p "controller"]
                       (Block
                          [ ForOf true "_" (call "every" [Id "SECOND"])
                              (Expr (mcall (Id "controller") "enqueue"
                                       [mcall (Id "performance") "now" []])) ])) ]]);
      ForOf true "value" (mcall (Id "stream") "values" [])
        (Block [expect "number"; Expr (Id "value")]);
      const "streamFromIterable"
        (mcall (Id "ReadableStream") "from" [Arr [Num 1; Num 2; Num 3; Num 4]]);
      ForOf true "value" (Id "streamFromIterable")
        (Block [expect "number"; Expr (Id "value")]);
      const "streamFromAsyncIterable"
        (mcall (Id "ReadableStream") "from"
           [Obj [ ComputedMethod (dot "Symbol" "asyncIterator")
                    (Func MethodDef true true []
                       (Block
                          [ For (Decl Let (BVar "i") None (Some (Num 0)))
                                (Bin "<" (Id "i") (Num 10)) (PostIncr (Id "i"))
                                (Block [ Expr (Await (call "wait" [Num 100]));
                                         Expr (Yield (Id "i")) ]) ])) ]]);
      ForOf true "value" (Id "streamFromAsyncIterable")
        (Block [expect "number"; Expr (Id "value")]) ].

(* lines 737-745 *)
Definition testWritableStream : cmd :=
  async_fun_decl "testWritableStream"
    [ const "stream"
        (new_ "WritableStream"
           [Obj [ method "write" ["chunk"]
                    [Expr (mcall (Id "console") "log" [Id "chunk"])] ]]);
      Expr (Await (mcall (mcall (Id "stream") "getWriter" []) "write"
                         [Str "Hello World"])) ].

(* lines 747-768 *)
Definition testTransformStream : cmd :=
  async_fun_decl "testTransformStream"
    [ const "stream"
        (new_ "ReadableStream"
           [Obj [ method "start" ["controller"]
                    [Expr (mcall (Id "controller") "enqueue" [Str "a"])] ]]);
      const "transform"
        (new_ "TransformStream"
           [Obj [ method "transform" ["chunk"; "controller"]
                    [Expr (mcall (Id "controller") "enqueue"
                             [mcall (Id "chunk") "toUpperCase" []])];
                  method "cancel" ["reason"]
                    [expect "any"; Expr (Id "reason")] ]]);
      const "transformedStream"
        (mcall (Id "stream") "pipeThrough" [Id "transform"]) ].

(* lines 771-789 *)
Definition testTransferringStreamWithPostMessage : cmd :=
  async_fun_decl "testTransferringStreamWithPostMessage"
    [ const "stream" (new_ "TransformStream" []);
      Block [ Decl Const (BObj ["port1"; "port2"]) None
                (Some (new_ "MessageChannel" [])) ];
      Block [ Decl Const (BObj ["port1"; "port2"]) None
                (Some (new_ "NodeMC" [])) ] ].

(** The statements outside the functions. *)

Definition objectMode_on : term := Obj [Init "objectMode" (BoolLit true)].
Definition pair_obj : term := Obj [Short "readable"; Short "writable"].
Definition boolean_of_line : cmd := ExpectTypeOfLine ["boolean"].
Definition byob_result : string :=
  "Promise<ReadableStreamReadResult<Uint8Array<ArrayBuffer>>>".
Definition listener (x t : string) : term :=
  arrow [p x] [expect t; Expr (Id x)].

Definition top_level_1 : list cmd :=
  [ (* line 547 *)
    Expr (call "addAbortSignal" [new_ "AbortSignal" []; new_ "Readable" []]);
    (* lines 549-553 *)
    Block [ const "a" (mcall (Id "Readable") "from"
                         [Arr [Str "test"]; objectMode_on]) ];
    (* lines 555-558 *)
    Block [ const "a" (new_ "Readable" []);
            Expr (mcall (Id "a") "unshift" [Str "something"; Str "utf8"]) ];
    (* lines 560-565 *)
    Block [ const "readable" (new_ "Readable" []);
            Expr (mcall (Id "Readable") "isDisturbed" [Id "readable"]);
            boolean_of_line;
            Decl Const (BVar "readableDidRead") (Some TBoolean)
              (Some (dot "readable" "readableDidRead"));
            Decl Const (BVar "readableAborted") (Some TBoolean)
              (Some (dot "readable" "readableAborted")) ];
    (* lines 567-571 *)
    Block [ Expr (call "isErrored" [new_ "Readable" []]); boolean_of_line;
            Expr (call "isErrored" [new_ "Duplex" []]); boolean_of_line;
            Expr (call "isErrored" [new_ "Writable" []]); boolean_of_line ];
    (* lines 573-576 *)
    Block [ Expr (call "isReadable" [new_ "Readable" []]); boolean_of_line;
            Expr (call "isReadable" [new_ "Duplex" []]); boolean_of_line ];
    (* lines 578-603 *)
    Block [ const "readable" (new_ "Readable" []);
            expect "ReadableStream<any>";
            Expr (mcall (Id "Readable") "toWeb" [Id "readable"]);
            expect "ReadableStream<any>";
            Expr (mcall (Id "Readable") "toWeb" [Id "readable"; Obj []]);
            expect "ReadableStream<any>";
            Expr (mcall (Id "Readable") "toWeb"
                    [Id "readable"; Obj [Init "strategy" (Obj [])]]);
            expect "ReadableStream<any>";
            Expr (mcall (Id "Readable") "toWeb"
                    [ Id "readable";
                      Obj [Init "strategy"
                             (Obj [ Init "highWaterMark" (Num 3);
                                    method "size" ["chunk"]
                                      [ expect "any"; Expr (Id "chunk");
                                        Return (Un "-" (Num 1)) ] ])] ]) ];
    (* lines 605-618 *)
    Block [ const "web" (new_ "ReadableStream" []);
            expect "Readable";
            Expr (mcall (Id "Readable") "fromWeb" [Id "web"]);
            expect "Readable";
            Expr (mcall (Id "Readable") "fromWeb" [Id "web"; objectMode_on]);
            ExpectError "";
            Expr (mcall (Id "Readable") "fromWeb"
                    [Id "web"; Obj [Init "emitClose" (BoolLit true)]]) ];
    (* lines 620-624 *)
    Block [ const "writable" (new_ "Writable" []);
            expect "WritableStream<any>";
            Expr (mcall (Id "Writable") "toWeb" [Id "writable"]) ];
    (* lines 626-639 *)
    Block [ const "web" (new_ "WritableStream" []);
            expect "Writable";
            Expr (mcall (Id "Writable") "fromWeb" [Id "web"]);
            expect "Writable";
            Expr (mcall (Id "Writable") "fromWeb" [Id "web"; objectMode_on]);
            ExpectError "";
            Expr (mcall (Id "Writable") "fromWeb"
                    [Id "web"; Obj [Init "write" (BoolLit true)]]) ];
    (* lines 641-645 *)
    Block [ const "duplex" (new_ "Duplex" []);
            expect "{ readable: ReadableStream<any>; writable: WritableStream<any>; }";
            Expr (mcall (Id "Duplex") "toWeb" [Id "duplex"]) ];
    (* lines 647-653 *)
    Block [ Decl Const (BArr ["duplexLeft"; "duplexRight"]) None
              (Some (call "duplexPair" []));
            expect "Duplex"; Expr (Id "duplexLeft");
            expect "Duplex"; Expr (Id "duplexRight") ];
    (* lines 655-675 *)
    Block [ const "readable" (new_ "ReadableStream" []);
            const "writable" (new_ "WritableStream" []);
            expect "Duplex";
            Expr (mcall (Id "Duplex") "fromWeb" [pair_obj]);
            expect "Duplex";
            Expr (mcall (Id "Duplex") "fromWeb" [pair_obj; objectMode_on]);
            ExpectError "";
            Expr (mcall (Id "Duplex") "fromWeb"
                    [pair_obj; Obj [Init "emitClose" (BoolLit true)]]);
            expect "Duplex";
            Expr (mcall (Id "Duplex") "from" [Id "readable"]);
            expect "Duplex";
            Expr (mcall (Id "Duplex") "from" [Id "writable"]) ] ].

Definition top_level_2 : list cmd :=
  [ (* lines 791-807 *)
    Block [ const "transform" (new_ "Transform" []);
            Expr (mcall
                    (mcall
                       (mcall
                          (mcall (Id "transform") "on"
                             [Str "pipe"; listener "src" "Readable"])
                          "once" [Str "unpipe"; listener "src" "Readable"])
                       "addListener" [Str "data"; listener "chunk" "any"])
                    "prependOnceListener" [Str "error"; listener "err" "Error"]) ];
    (* lines 809-830 *)
    Block [ Decl Let (BVar "byobReader") None
              (Some (mcall
                       (mcall (new_ "Blob" [Arr [Str "1"; Str "2"]]) "stream" [])
                       "getReader" [Obj [Init "mode" (Str "byob")]]));
            Expr (Assign (Id "byobReader")
                    (new_ "ReadableStreamBYOBReader"
                       [mcall (new_ "Blob" [Arr []]) "stream" []]));
            expect "Promise<void>";
            Expr (mcall (Id "byobReader") "cancel" []);
            expect "Promise<void>";
            Expr (mcall (Id "byobReader") "cancel" [Str "reason"]);
            expect "Promise<void>";
            Expr (dot "byobReader" "closed");
            expect byob_result;
            Expr (mcall (Id "byobReader") "read" [new_ "Uint8Array" []]);
            expect byob_result;
            Expr (mcall (Id "byobReader") "read" [new_ "Uint8Array" []; Obj []]);
            expect byob_result;
            Expr (mcall (Id "byobReader") "read"
                    [new_ "Uint8Array" []; Obj [Init "min" (Num 1)]]);
            expect "void";
            Expr (mcall (Id "byobReader") "releaseLock" []) ] ].

Definition import_decls : list cmd :=
  flat_map (fun s => match s with
                     | SImport c from => [ImportDecl c from]
                     | _ => []
                     end) stream_test.imports.

(** The module, statement by statement. *)
Definition module : list cmd :=
  import_decls
  ++ [ simplified_stream_ctor_test;
       streamPipelineFinished;
       asyncStreamPipelineFinished;
       streamPipelineAsyncTransform;
       streamPipelineAsyncPromiseTransform;
       streamPipelineAsyncPromiseAbortTransform;
       streamPipelineAsyncPromiseOptions;
       testConsumers;
       stream_readable_pipe_test;
       stream_duplex_allowHalfOpen_test ]
  ++ top_level_1
  ++ [ testReadableReduce;
       testReadableFind;
       testReadableStream;
       testWritableStream;
       testTransformStream;
       testTransferringStreamWithPostMessage ]
  ++ top_level_2.

End stream_test_full.

(** ** From the full embedding to the first one *)

Fixpoint all_some {A : Type} (l : list (option A)) : option (list A) :=
  match l with
  | [] => Some []
  | Some x :: r => option_map (cons x) (all_some r)
  | None :: _ => None
  end.

(** The expression of the first embedding that a term stands for: function
    values keep their parameter names only; terms that embedding has no
    form for ([await], [yield], casts, operators) have none. *)
Fixpoint erase (t : term) : option expr :=
  match t with
  | Id x => Some (EId x)
  | Str s => Some (EStr s)
  | Num n => Some (ENum n)
  | BoolLit b => Some (EBool b)
  | Arr es => option_map EArr (all_some (map erase es))
  | Obj ps => option_map EObj (all_some (map erase_prop ps))
  | Fn (Func _ _ _ ps _) => Some (EFun (map fp_name ps))
  | Member o f => option_map (fun o' => EMember o' f) (erase o)
  | Call c args =>
      match erase c, all_some (map erase args) with
      | Some c', Some args' => Some (ECall c' args')
      | _, _ => None
      end
  | New c [] args =>
      match erase c, all_some (map erase args) with
      | Some c', Some args' => Some (ENew c' args')
      | _, _ => None
      end
  | _ => None
  end
with erase_prop (q : prop) : option (string * expr) :=
  match q with
  | Init k v => option_map (pair k) (erase v)
  | Short n => Some (n, EId n)
  | Method k (Func _ _ _ ps _) => Some (k, EFun (map fp_name ps))
  | ComputedMethod _ _ => None
  end.

(** The statements a command stands for: none for a directive. *)
Fixpoint erase_cmd (c : cmd) : option (list stmt) :=
  match c with
  | Expr (Assign (Id x) v) => option_map (fun e => [SAssign x e]) (erase v)
  | Expr e => option_map (fun e' => [SExpr e']) (erase e)
  | Decl Const (BVar x) annot (Some e) =>
      option_map (fun e' => [SConst (PVar x) annot e']) (erase e)
  | Decl Const (BArr xs) annot (Some e) =>
      option_map (fun e' => [SConst (PArr xs) annot e']) (erase e)
  | Decl Let (BVar x) None (Some e) => option_map (fun e' => [SLet x e']) (erase e)
  | Block b =>
      option_map (fun l => [SBlock (concat l)]) (all_some (map erase_cmd b))
  | ExpectType _ | ExpectTypeOfLine _ | ExpectError _ => Some []
  | FunctionDecl n (Func _ a _ _ _) => Some [SFunction n a 0 0]
  | ImportDecl cl from => Some [SImport cl from]
  | _ => None
  end.

Definition erase_module (cs : list cmd) : option (list stmt) :=
  option_map (@concat stmt) (all_some (map erase_cmd cs)).

Definition forget_lines (s : stmt) : stmt :=
  match s with
  | SFunction n a _ _ => SFunction n a 0 0
  | _ => s
  end.

(** ** Names in scope *)

Definition binder_names (b : binder) : list string :=
  match b with
  | BVar x => [x]
  | BArr xs | BObj xs => xs
  end.

(** The names a command declares for the commands after it. *)
Definition declares (c : cmd) : list string :=
  match c with
  | Decl _ b _ _ => binder_names b
  | _ => []
  end.

(** The identifiers of a term that no enclosing parameter, loop variable or
    earlier declaration of an enclosing block binds, with [env] the names
    bound around the term.  Imports and function declarations are not
    counted as binders here: their uses show. *)
Fixpoint free (env : list string) (t : term) {struct t} : list string :=
  match t with
  | Id x => if mem_string x env then [] else [x]
  | This | Str _ | Num _ | BoolLit _ | NullLit => []
  | Arr es => flat_map (free env) es
  | Obj ps => flat_map (free_prop env) ps
  | Fn f => free_func env f
  | Member o _ => free env o
  | Index o i => (free env o ++ free env i)%list
  | Call c args => (free env c ++ flat_map (free env) args)%list
  | New c _ args => (free env c ++ flat_map (free env) args)%list
  | Await e | Yield e | As e _ | Un _ e | PostIncr e => free env e
  | Bin _ l r => (free env l ++ free env r)%list
  | Assign a b => (free env a ++ free env b)%list
  end
with free_prop (env : list string) (q : prop) {struct q} : list string :=
  match q with
  | Init _ v => free env v
  | Short n => if mem_string n env then [] else [n]
  | Method _ f => free_func env f
  | ComputedMethod k f => (free env k ++ free_func env f)%list
  end
with free_func (env : list string) (f : func) {struct f} : list string :=
  match f with
  | Func _ _ _ ps b => free_cmd (map fp_name ps ++ env)%list b
  end
with free_cmd (env : list string) (c : cmd) {struct c} : list string :=
  match c with
  | Expr e | Return e => free env e
  | Decl _ _ _ (Some e) => free env e
  | Decl _ _ _ None => []
  | For i c u b =>
      let env' := (declares i ++ env)%list in
      (free_cmd env i ++ free env' c ++ free env' u ++ free_cmd env' b)%list
  | ForOf _ x it b => (free env it ++ free_cmd (x :: env) b)%list
  | Block b =>
      (fix go (env : list string) (l : list cmd) : list string :=
         match l with
         | [] => []
         | c :: r => (free_cmd env c ++ go (declares c ++ env)%list r)%list
         end) env b
  | FunctionDecl _ f => free_func env f
  | ExpectType _ | ExpectTypeOfLine _ | ExpectError _ | ImportDecl _ _ => []
  end.

Definition annot_names (o : option ty) : list string :=
  match o with
  | Some t => ty_names t
  | None => []
  end.

(** The type names written in annotations, casts and type arguments. *)
Fixpoint type_mentions (t : term) {struct t} : list string :=
  match t with
  | Arr es => flat_map type_mentions es
  | Obj ps => flat_map type_mentions_prop ps
  | Fn f => type_mentions_func f
  | Member o _ => type_mentions o
  | Index o i => (type_mentions o ++ type_mentions i)%list
  | Call c args => (type_mentions c ++ flat_map type_mentions args)%list
  | New c targs args =>
      (type_mentions c ++ flat_map ty_names targs
       ++ flat_map type_mentions args)%list
  | Await e | Yield e | Un _ e | PostIncr e => type_mentions e
  | As e ty => (type_mentions e ++ ty_names ty)%list
  | Bin _ l r => (type_mentions l ++ type_mentions r)%list
  | Assign a b => (type_mentions a ++ type_mentions b)%list
  | _ => []
  end
with type_mentions_prop (q : prop) {struct q} : list string :=
  match q with
  | Init _ v => type_mentions v
  | Short _ => []
  | Method _ f => type_mentions_func f
  | ComputedMethod k f => (type_mentions k ++ type_mentions_func f)%list
  end
with type_mentions_func (f : func) {struct f} : list string :=
  match f with
  | Func _ _ _ ps b =>
      (flat_map (fun q => annot_names (fp_annot q)) ps
       ++ type_mentions_cmd b)%list
  end
with type_mentions_cmd (c : cmd) {struct c} : list string :=
  match c with
  | Expr e | Return e => type_mentions e
  | Decl _ _ annot init =>
      (annot_names annot
       ++ match init with Some e => type_mentions e | None => [] end)%list
  | For i c u b =>
      (type_mentions_cmd i ++ type_mentions c ++ type_mentions u
       ++ type_mentions_cmd b)%list
  | ForOf _ _ it b => (type_mentions it ++ type_mentions_cmd b)%list
  | Block b => flat_map type_mentions_cmd b
  | FunctionDecl _ f => type_mentions_func f
  | ExpectType _ | ExpectTypeOfLine _ | ExpectError _ | ImportDecl _ _ => []
  end.

(** ** Statement lists and their directives *)

(** Every statement list under a term or command: blocks and the bodies of
    functions, at any depth. *)
Fixpoint blocks_of (t : term) {struct t} : list (list cmd) :=
  match t with
  | Arr es => flat_map blocks_of es
  | Obj ps => flat_map blocks_of_prop ps
  | Fn f => blocks_of_func f
  | Member o _ => blocks_of o
  | Index o i => (blocks_of o ++ blocks_of i)%list
  | Call c args => (blocks_of c ++ flat_map blocks_of args)%list
  | New c _ args => (blocks_of c ++ flat_map blocks_of args)%list
  | Await e | Yield e | As e _ | Un _ e | PostIncr e => blocks_of e
  | Bin _ l r => (blocks_of l ++ blocks_of r)%list
  | Assign a b => (blocks_of a ++ blocks_of b)%list
  | _ => []
  end
with blocks_of_prop (q : prop) {struct q} : list (list cmd) :=
  match q with
  | Init _ v => blocks_of v
  | Short _ => []
  | Method _ f => blocks_of_func f
  | ComputedMethod k f => (blocks_of k ++ blocks_of_func f)%list
  end
with blocks_of_func (f : func) {struct f} : list (list cmd) :=
  match f with
  | Func _ _ _ _ b => blocks_of_cmd b
  end
with blocks_of_cmd (c : cmd) {struct c} : list (list cmd) :=
  match c with
  | Expr e | Return e => blocks_of e
  | Decl _ _ _ (Some e) => blocks_of e
  | For i c u b =>
      (blocks_of_cmd i ++ blocks_of c ++ blocks_of u ++ blocks_of_cmd b)%list
  | ForOf _ _ it b => (blocks_of it ++ blocks_of_cmd b)%list
  | Block b => b :: flat_map blocks_of_cmd b
  | FunctionDecl _ f => blocks_of_func f
  | _ => []
  end.

(** The statement lists of a module: the module itself and all below. *)
Definition all_blocks (m : list cmd) : list (list cmd) :=
  m :: flat_map blocks_of_cmd m.

(** The typed expressions of a statement list: each expression statement
    with the alternatives of the [$ExpectType] on the line before it or at
    the end of its line. *)
Fixpoint expectations (b : list cmd) : list (term * list string) :=
  match b with
  | [] => []
  | ExpectType alts :: r =>
      match r with
      | Expr e :: r' => (e, alts) :: expectations r'
      | _ => expectations r
      end
  | Expr e :: r =>
      match r with
      | ExpectTypeOfLine alts :: r' => (e, alts) :: expectations r'
      | _ => expectations r
      end
  | _ :: r => expectations r
  end.

(** Every directive of a statement list stands beside an expression
    statement: before it, or after it for one that ends a line. *)
Fixpoint attached (b : list cmd) : bool :=
  match b with
  | [] => true
  | ExpectType _ :: r | ExpectError _ :: r =>
      match r with
      | Expr _ :: r' => attached r'
      | _ => false
      end
  | Expr _ :: r =>
      match r with
      | ExpectTypeOfLine _ :: r' => attached r'
      | _ => attached r
      end
  | ExpectTypeOfLine _ :: _ => false
  | _ :: r => attached r
  end.

(** The expression statements marked [@ts-expect-error], and those that
    carry no such mark. *)
Fixpoint negatives (b : list cmd) : list term :=
  match b with
  | [] => []
  | ExpectError _ :: r =>
      match r with
      | Expr e :: r' => e :: negatives r'
      | _ => negatives r
      end
  | _ :: r => negatives r
  end.

Fixpoint positives (b : list cmd) : list term :=
  match b with
  | [] => []
  | ExpectError _ :: r =>
      match r with
      | Expr _ :: r' => positives r'
      | _ => positives r
      end
  | Expr e :: r => e :: positives r
  | _ :: r => positives r
  end.

(** The call a statement makes, awaited or not. *)
Definition call_parts (e : term) : option (term * list term) :=
  match e with
  | Call c args | Await (Call c args) => Some (c, args)
  | _ => None
  end.

Definition calls (es : list term) : list (term * list term) :=
  flat_map (fun e => match call_parts e with Some ca => [ca] | None => [] end) es.

(** The marked calls of a module, each with the unmarked calls of the
    statement list it stands in. *)
Definition negative_cases (m : list cmd)
  : list (term * list term * list (term * list term)) :=
  flat_map (fun b => map (fun ca => (fst ca, snd ca, calls (positives b)))
                         (calls (negatives b)))
           (all_blocks m).

(** Two argument lists that differ in one position only. *)
Definition one_differs (l1 l2 : list term) : Prop :=
  exists pre a b post,
    l1 = (pre ++ a :: post)%list /\ l2 = (pre ++ b :: post)%list /\ a <> b.

(** The body of a declared function. *)
Definition body_of (c : cmd) : list cmd :=
  match c with
  | FunctionDecl _ (Func _ _ _ _ (Block b)) => b
  | _ => []
  end.

(** [f(args).m(more)] with [extra] added to [args]; other statements are
    left as they are. *)
Definition with_option (extra : term) (c : cmd) : cmd :=
  match c with
  | Expr (Call (Member (Call f args) m) more) =>
      Expr (Call (Member (Call f (args ++ [extra])) m) more)
  | _ => c
  end.

(** A typed expression inside an option method of a constructor call:
    [new in_class({ in_method(...) { // $ExpectType expected
    subject; } })]. *)
Record ctor_test : Type := CtorTest {
  in_class : string;
  in_method : string;
  subject : term;
  expected : list string
}.

Definition ctor_expectations (b : list cmd) : list ctor_test :=
  flat_map (fun c =>
    match c with
    | Expr (New (Id class) _ [Obj props]) =>
        flat_map (fun q =>
          match q with
          | Method k (Func _ _ _ _ (Block mb)) =>
              map (fun ex => CtorTest class k (fst ex) (snd ex)) (expectations mb)
          | _ => []
          end) props
    | _ => []
    end) b.

(** The expectations of every statement list of a command, in order. *)
Definition deep_expectations (c : cmd) : list (term * list string) :=
  flat_map expectations (blocks_of_cmd c).

Definition is_id (x : string) (t : term) : bool :=
  match t with
  | Id y => String.eqb x y
  | _ => false
  end.

Definition is_this (t : term) : bool :=
  match t with
  | This => true
  | _ => false
  end.

(** [await] and [for await] stand directly inside an async function and
    [yield] directly inside a generator; [in_async] and [in_generator] say
    what the innermost enclosing function is. *)
Fixpoint suspends_ok (in_async in_generator : bool) (t : term) {struct t} : bool :=
  match t with
  | Await e => in_async && suspends_ok in_async in_generator e
  | Yield e => in_generator && suspends_ok in_async in_generator e
  | Arr es => forallb (suspends_ok in_async in_generator) es
  | Obj ps => forallb (suspends_ok_prop in_async in_generator) ps
  | Fn f => suspends_ok_func f
  | Member o _ => suspends_ok in_async in_generator o
  | Index o i =>
      suspends_ok in_async in_generator o && suspends_ok in_async in_generator i
  | Call c args | New c _ args =>
      suspends_ok in_async in_generator c
      && forallb (suspends_ok in_async in_generator) args
  | As e _ | Un _ e | PostIncr e => suspends_ok in_async in_generator e
  | Bin _ l r | Assign l r =>
      suspends_ok in_async in_generator l && suspends_ok in_async in_generator r
  | _ => true
  end
with suspends_ok_prop (in_async in_generator : bool) (q : prop) {struct q} : bool :=
  match q with
  | Init _ v => suspends_ok in_async in_generator v
  | Short _ => true
  | Method _ f => suspends_ok_func f
  | ComputedMethod k f =>
      suspends_ok in_async in_generator k && suspends_ok_func f
  end
with suspends_ok_func (f : func) {struct f} : bool :=
  match f with
  | Func _ a g _ b => suspends_ok_cmd a g b
  end
with suspends_ok_cmd (in_async in_generator : bool) (c : cmd) {struct c} : bool :=
  match c with
  | Expr e | Return e => suspends_ok in_async in_generator e
  | Decl _ _ _ (Some e) => suspends_ok in_async in_generator e
  | For i c u b =>
      suspends_ok_cmd in_async in_generator i
      && suspends_ok in_async in_generator c
      && suspends_ok in_async in_generator u
      && suspends_ok_cmd in_async in_generator b
  | ForOf awaited _ it b =>
      implb awaited in_async
      && suspends_ok in_async in_generator it
      && suspends_ok_cmd in_async in_generator b
  | Block b => forallb (suspends_ok_cmd in_async in_generator) b
  | FunctionDecl _ f => suspends_ok_func f
  | _ => true
  end.

(** How often a module suspends: [await] and [for await], and [yield]. *)
Fixpoint suspensions (t : term) {struct t} : nat * nat :=
  let add (a b : nat * nat) := (fst a + fst b, snd a + snd b) in
  let sum (l : list (nat * nat)) := fold_right add (0, 0) l in
  match t with
  | Await e => add (1, 0) (suspensions e)
  | Yield e => add (0, 1) (suspensions e)
  | Arr es => sum (map suspensions es)
  | Obj ps => sum (map suspensions_prop ps)
  | Fn f => suspensions_func f
  | Member o _ => suspensions o
  | Index o i => add (suspensions o) (suspensions i)
  | Call c args | New c _ args => add (suspensions c) (sum (map suspensions args))
  | As e _ | Un _ e | PostIncr e => suspensions e
  | Bin _ l r | Assign l r => add (suspensions l) (suspensions r)
  | _ => (0, 0)
  end
with suspensions_prop (q : prop) {struct q} : nat * nat :=
  let add (a b : nat * nat) := (fst a + fst b, snd a + snd b) in
  match q with
  | Init _ v => suspensions v
  | Short _ => (0, 0)
  | Method _ f => suspensions_func f
  | ComputedMethod k f => add (suspensions k) (suspensions_func f)
  end
with suspensions_func (f : func) {struct f} : nat * nat :=
  match f with
  | Func _ _ _ _ b => suspensions_cmd b
  end
with suspensions_cmd (c : cmd) {struct c} : nat * nat :=
  let add (a b : nat * nat) := (fst a + fst b, snd a + snd b) in
  let sum (l : list (nat * nat)) := fold_right add (0, 0) l in
  match c with
  | Expr e | Return e => suspensions e
  | Decl _ _ _ (Some e) => suspensions e
  | For i c u b =>
      add (suspensions_cmd i)
          (add (suspensions c) (add (suspensions u) (suspensions_cmd b)))
  | ForOf awaited _ it b =>
      add ((if awaited then 1 else 0), 0)
          (add (suspensions it) (suspensions_cmd b))
  | Block b => sum (map suspensions_cmd b)
  | FunctionDecl _ f => suspensions_func f
  | _ => (0, 0)
  end.

(** The functions a module declares. *)
Definition declared_functions (m : list cmd) : list string :=
  flat_map (fun c => match c with FunctionDecl n _ => [n] | _ => [] end) m.

(** The names the module refers to that none of its parameters, loop
    variables and local declarations binds, each once. *)
Definition module_references : list string :=
  dedup [] (free_cmd [] (Block stream_test_full.module)).

Definition module_type_mentions : list string :=
  dedup [] (type_mentions_cmd (Block stream_test_full.module)).

(** What the JavaScript and Node runtimes provide without an import. *)
Definition globals : list string :=
  [ "AbortSignal"; "process"; "console"; "Date"; "Buffer"; "AbortController";
    "undefined"; "Symbol"; "Boolean"; "Array"; "MessageChannel"; "Uint8Array" ].

(** * Properties *)

(** ** Equality of type expressions *)

Fixpoint ty_eqb_refl (t : ty) : ty_eqb t t = true
with param_eqb_refl (p : param) : param_eqb p p = true.
Proof.
  - destruct t as [ | | | | | | | | n args | alts | e | ps r | n ]; simpl;
      try reflexivity.
    + rewrite String.eqb_refl; simpl.
      induction args as [| a l IH]; [reflexivity |].
      rewrite (ty_eqb_refl a); exact IH.
    + induction alts as [| a l IH]; [reflexivity |].
      rewrite (ty_eqb_refl a); exact IH.
    + apply ty_eqb_refl.
    + rewrite (ty_eqb_refl r), andb_true_r.
      induction ps as [| a l IH]; [reflexivity |].
      rewrite (param_eqb_refl a); exact IH.
    + apply String.eqb_refl.
  - destruct p as [n o t]; simpl.
    rewrite String.eqb_refl, Bool.eqb_reflx, (ty_eqb_refl t). reflexivity.
Qed.

Section CheckerFacts.

Variable ct : string -> option class_info.

Lemma assignable_refl (fuel : nat) (t : ty) : assignable ct (S fuel) t t = true.
Proof. simpl. now rewrite ty_eqb_refl. Qed.

(** A type that is not itself a union is accepted where a union listing
    it is expected. *)
Lemma assignable_union_member (fuel : nat) (t : ty) (alts : list ty) :
  (forall l, t <> TUnion l) -> In t alts ->
  assignable ct (S (S fuel)) t (TUnion alts) = true.
Proof.
  intros Hnu Hin.
  assert (Hex : existsb (fun t' => assignable ct (S fuel) t t') alts = true).
  { apply existsb_exists. exists t. split; [exact Hin | apply assignable_refl]. }
  cbn [assignable]. destruct (ty_eqb t (TUnion alts)); [reflexivity |].
  destruct t; try exact Hex; try reflexivity.
  exfalso. eapply Hnu. reflexivity.
Qed.

(** A required parameter takes an argument of one of its alternatives. *)
Lemma required_union_param (fuel : nat) (n : string) (alts : list ty) (a : ty) :
  (forall l, a <> TUnion l) -> In a alts ->
  assignable ct (S (S fuel)) a (param_type (req n (TUnion alts))) = true.
Proof. intros. now apply assignable_union_member. Qed.

(** An optional parameter of type [t] takes an argument of type [t]. *)
Lemma optional_param (fuel : nat) (n : string) (t : ty) :
  (forall l, t <> TUnion l) ->
  assignable ct (S (S fuel)) t (param_type (opt n t)) = true.
Proof.
  intros Hnu. unfold param_type, opt, optional.
  apply assignable_union_member; [exact Hnu | now left].
Qed.

(** A class type is not accepted where a class type with a required
    property it lacks is expected. *)
Lemma missing_property_rejected (fuel : nat) (n m : string) (xs ys : list ty)
      (have want : list property) (w : property) :
  ty_eqb (TRef n xs) (TRef m ys) = false ->
  properties_of ct fuel (TRef n xs) = Some have ->
  properties_of ct fuel (TRef m ys) = Some want ->
  In w want -> prop_optional w = false ->
  find_property (prop_name w) have = None ->
  assignable ct (S fuel) (TRef n xs) (TRef m ys) = false.
Proof.
  intros Hne Hhave Hwant Hin Hreq Hmiss.
  cbn [assignable]. rewrite Hne, Hhave, Hwant.
  destruct (forallb _ want) eqn:Hall; [| reflexivity].
  rewrite forallb_forall in Hall. specialize (Hall w Hin).
  rewrite Hmiss, Hreq in Hall. discriminate.
Qed.

End CheckerFacts.

(** ** Loading declarations *)

(** A file made of declarations only runs nothing, whatever it declares
    and whatever the functions outside it do. *)
Lemma declarations_run_nothing (throws : outcomes) (done : list event)
      (ss : list stmt) :
  forallb is_declaration ss = true -> exec_all throws done ss = ([], Finished).
Proof.
  revert done. induction ss as [| s r IH]; intros done H; [reflexivity |].
  simpl in H. apply andb_true_iff in H as [Hs Hr].
  simpl. destruct s; simpl in Hs; try discriminate; simpl;
    now rewrite (IH _ Hr).
Qed.

Lemma declarations_mention_nothing (names : list string) (ss : list stmt) :
  forallb is_declaration ss = true -> existsb (stmt_mentions names) ss = false.
Proof.
  induction ss as [| s r IH]; [reflexivity |].
  simpl. intros H. apply andb_true_iff in H as [Hs Hr].
  rewrite (IH Hr). destruct s; simpl in Hs; try discriminate; reflexivity.
Qed.

Lemma declarations_load_empty (f : source_file) :
  forallb is_declaration (body f) = true -> equivalent_to_empty f.
Proof.
  intros H throws. unfold run.
  rewrite (declarations_mention_nothing _ _ H).
  now rewrite (declarations_run_nothing throws [] _ H).
Qed.

(** Declarations at the head of a file do not show in what it performs. *)
Lemma exec_all_after_declarations (throws : outcomes) (done : list event)
      (pre ss : list stmt) :
  forallb is_declaration pre = true ->
  exec_all throws done (pre ++ ss) = exec_all throws done ss.
Proof.
  revert done. induction pre as [| s r IH]; intros done H; [reflexivity |].
  simpl in H. apply andb_true_iff in H as [Hs Hr].
  destruct s; simpl in Hs; try discriminate; simpl;
    rewrite app_nil_r, (IH _ Hr); now destruct (exec_all throws done ss).
Qed.

(** ** Module resolution *)

Lemma relative_not_builtin (spec : string) :
  is_relative spec = true -> prefix "node:" spec = false.
Proof.
  destruct spec as [| a r]; [reflexivity |].
  destruct a as [[] [] [] [] [] [] [] []]; try reflexivity;
    intros H; vm_compute in H; discriminate H.
Qed.

(** A relative specifier never names an external library module. *)
Lemma relative_not_external (importer spec : string) :
  is_relative spec = true -> is_external (resolve importer spec) = false.
Proof.
  intros Hrel. unfold resolve.
  rewrite (relative_not_builtin _ Hrel), Hrel.
  now destruct (normalise _ _).
Qed.

Lemma node_specifier_is_builtin (importer spec : string) :
  prefix "node:" spec = true -> resolve importer spec = Builtin spec.
Proof. intros H. unfold resolve. now rewrite H. Qed.

Lemma split_on_not_nil (c : ascii) (s : string) : split_on c s <> [].
Proof.
  destruct s as [| a r]; simpl; [discriminate |].
  destruct (Ascii.eqb a c); [discriminate |].
  destruct (split_on c r); discriminate.
Qed.

Lemma concat_cons (sep x : string) (l : list string) :
  l <> [] -> String.concat sep (x :: l) = x ++ sep ++ String.concat sep l.
Proof. destruct l; [congruence | reflexivity]. Qed.

(** Joining the segments of a path gives the path back. *)
Lemma concat_split_on (c : ascii) (s : string) :
  String.concat (String c "") (split_on c s) = s.
Proof.
  induction s as [| a r IH]; [reflexivity |].
  simpl. destruct (Ascii.eqb_spec a c) as [-> | Hne].
  - rewrite concat_cons by apply split_on_not_nil.
    simpl. now rewrite IH.
  - destruct (split_on c r) as [| h t] eqn:Hs.
    + now apply split_on_not_nil in Hs.
    + destruct t as [| h' t']; simpl in *; now rewrite <- IH.
Qed.

Lemma append_assoc (a b c : string) : (a ++ b) ++ c = a ++ (b ++ c).
Proof. induction a as [| x a IH]; simpl; [reflexivity | now rewrite IH]. Qed.

Lemma prefix_append (a b : string) : prefix a (a ++ b) = true.
Proof.
  induction a as [| x a IH]; simpl; [now destruct b |].
  destruct (ascii_dec x x); [exact IH | congruence].
Qed.

(** The typings of package [q] sit under [types/q/]. *)
Lemma package_of_path_prefix (p q : string) :
  package_of_path p = Some q -> prefix ("types/" ++ q ++ "/") p = true.
Proof.
  unfold package_of_path. intros H.
  destruct (split_on slash p) as [| a [| b [| c r]]] eqn:Hs; try discriminate.
  destruct (String.eqb_spec a "types") as [-> | Hne]; [| discriminate].
  injection H as <-.
  rewrite <- (concat_split_on slash p), Hs.
  rewrite concat_cons by discriminate.
  rewrite concat_cons by discriminate.
  change (String slash "") with "/".
  replace ("types" ++ "/" ++ b ++ "/" ++ String.concat "/" (c :: r))
    with (("types/" ++ b ++ "/") ++ String.concat "/" (c :: r)).
  - apply prefix_append.
  - simpl. do 6 f_equal. now rewrite append_assoc.
Qed.

(** An import of a Node runtime module reaches no file. *)
Lemma stream_set_imports_reach_no_file (g : source_file) :
  forallb (fun f => forallb (fun t => negb (reaches t g)) (targets f))
          stream_set = true.
Proof. reflexivity. Qed.

Lemma file_under_reaches (dir p : string) (g : source_file) :
  prefix dir p = true -> prefix dir (path g) = false ->
  reaches (RepoFile p) g = false.
Proof.
  intros Hp Hg. simpl. destruct (String.eqb_spec p (path g)) as [-> | _];
    [congruence | reflexivity].
Qed.

Lemma package_reaches (q : string) (g : source_file) :
  prefix ("types/" ++ q ++ "/") (path g) = false ->
  reaches (Package q) g = false.
Proof.
  intros Hg. simpl.
  destruct (package_of_path (path g)) as [q' |] eqn:Hq; [| reflexivity].
  destruct (String.eqb_spec q q') as [-> | _]; [| reflexivity].
  apply package_of_path_prefix in Hq. congruence.
Qed.

(** The imports of the renderer set stay inside [types/three/]: they reach
    no file outside it, wherever the stream test module is kept. *)
Lemma renderer_set_imports_stay_in_three (g : source_file) :
  prefix "types/three/" (path g) = false ->
  forallb (fun f => forallb (fun t => negb (reaches t g)) (targets f))
          renderer_set = true.
Proof.
  intros Hg.
  assert (Hfile : forall p, prefix "types/three/" p = true ->
                            negb (reaches (RepoFile p) g) = true).
  { intros p Hp. now rewrite (@file_under_reaches "types/three/" p g Hp Hg). }
  assert (Hpkg : negb (reaches (Package "three") g) = true).
  { now rewrite (@package_reaches "three" g Hg). }
  unfold renderer_set. cbn [forallb].
  let ts := eval vm_compute in (targets WebGLRenderer_d_ts.file) in
  change (targets WebGLRenderer_d_ts.file) with ts.
  let ts := eval vm_compute in (targets Lut3DNode_d_ts.file) in
  change (targets Lut3DNode_d_ts.file) with ts.
  cbn [forallb].
  rewrite !Hfile by reflexivity. rewrite Hpkg. reflexivity.
Qed.

(** ** The Lut3DNode declaration *)

(** C7.  The class [Lut3DNode] extends [TempNode] and declares exactly five
    members: the fields [inputNode: Node], [lutNode: Texture3DNode],
    [size: ShaderNodeObject<UniformNode<number>>] and
    [intensityNode: UniformNode<number>], and one constructor taking
    [(inputNode: Node, lutNode: UniformNode<Data3DTexture>, size: number,
    intensityNode: UniformNode<number>)]; it declares no method.  The file
    exports the class as its default and a constant [lut3D], a function of
    [(node, lut, size, intensity)] returning [ShaderNodeObject<Lut3DNode>]. *)
Theorem Lut3DNode_declared_surface :
  find_heritage_in (body Lut3DNode_d_ts.file) "Lut3DNode"
    = Some (Some (named "TempNode"))
  /\ (exists ms,
        find_class Lut3DNode_d_ts.file "Lut3DNode" = Some ms
        /\ length ms = 5
        /\ class_fields ms =
             [ ("inputNode", named "Node");
               ("lutNode", named "Texture3DNode");
               ("size", TRef "ShaderNodeObject" [TRef "UniformNode" [TNumber]]);
               ("intensityNode", TRef "UniformNode" [TNumber]) ]
        /\ class_ctors ms =
             [ [ req "inputNode" (named "Node");
                 req "lutNode" (TRef "UniformNode" [named "Data3DTexture"]);
                 req "size" TNumber;
                 req "intensityNode" (TRef "UniformNode" [TNumber]) ] ]
        /\ class_methods ms = [])
  /\ (exists ps,
        find_const Lut3DNode_d_ts.file "lut3D"
          = Some (TFun ps (TRef "ShaderNodeObject" [named "Lut3DNode"]))
        /\ map pname ps = ["node"; "lut"; "size"; "intensity"]
        /\ map optional ps = [false; false; false; false])
  /\ In (SExportDefault "Lut3DNode") (body Lut3DNode_d_ts.file).
Proof.
  split; [reflexivity |].
  split.
  { exists Lut3DNode_d_ts.Lut3DNode_members. repeat split. }
  split.
  { eexists. split; [reflexivity |]. split; reflexivity. }
  simpl. tauto.
Qed.

(** ** The viewport and scissor setters *)

Lemma number_not_union (l : list ty) : TNumber <> TUnion l.
Proof. discriminate. Qed.

Lemma Vector4_not_union (l : list ty) : named "Vector4" <> TUnion l.
Proof. discriminate. Qed.

(** The parameter list of the two setters takes a first argument that is a
    [Vector4] or a number, followed by up to three numbers. *)
Lemma viewport_params_take (ct : string -> option class_info) (fuel : nat)
      (first : ty) (others : list ty) :
  first = named "Vector4" \/ first = TNumber ->
  Forall (eq TNumber) others -> length others <= 3 ->
  call_ok ct (S (S fuel)) viewport_params (first :: others) = true.
Proof.
  intros Hfirst Hothers Hlen.
  assert (H1 : assignable ct (S (S fuel)) first
                 (param_type (req "x" (TUnion [named "Vector4"; TNumber]))) = true).
  { destruct Hfirst as [-> | ->]; apply required_union_param;
      auto using number_not_union, Vector4_not_union; simpl; auto. }
  assert (Hn : forall n, assignable ct (S (S fuel)) TNumber
                           (param_type (opt n TNumber)) = true).
  { intros n. apply optional_param, number_not_union. }
  unfold call_ok, viewport_params.
  cbn [min_args optional req opt length Nat.leb andb args_fit].
  rewrite H1. cbn [andb].
  destruct others as [| a1 [| a2 [| a3 [| a4 r]]]]; cbn [args_fit];
    repeat match goal with
           | H : Forall _ (_ :: _) |- _ => inversion H; clear H; subst
           end;
    rewrite ?Hn; try reflexivity.
  simpl in Hlen. lia.
Qed.

(** C10.  [setViewport] and [setScissor] are each declared once, with a
    first parameter [x: Vector4 | number] and three optional number
    parameters, returning [void].  Whatever the imported declarations are,
    a call with a single [Vector4], a call with four numbers, and a call with
    a single number are all accepted. *)
Theorem setViewport_setScissor_accept_vector_or_numbers
        (ct : string -> option class_info) :
  method_sigs WebGLRenderer_d_ts.WebGLRenderer_members "setViewport"
    = [(viewport_params, TVoid)]
  /\ method_sigs WebGLRenderer_d_ts.WebGLRenderer_members "setScissor"
    = [(viewport_params, TVoid)]
  /\ map ptype viewport_params
    = [TUnion [named "Vector4"; TNumber]; TNumber; TNumber; TNumber]
  /\ map optional viewport_params = [false; true; true; true]
  /\ min_args viewport_params = 1
  /\ (let accepts name args :=
        call_type ct depth WebGLRenderer_d_ts.WebGLRenderer_members name args
        = Some TVoid in
      accepts "setViewport" [named "Vector4"]
      /\ accepts "setViewport" [TNumber; TNumber; TNumber; TNumber]
      /\ accepts "setViewport" [TNumber]
      /\ accepts "setScissor" [named "Vector4"]
      /\ accepts "setScissor" [TNumber; TNumber; TNumber; TNumber]
      /\ accepts "setScissor" [TNumber]).
Proof.
  assert (Hsv : callable_sigs WebGLRenderer_d_ts.WebGLRenderer_members
                              "setViewport"
                = [(viewport_params, TVoid)]) by reflexivity.
  assert (Hss : callable_sigs WebGLRenderer_d_ts.WebGLRenderer_members
                              "setScissor"
                = [(viewport_params, TVoid)]) by reflexivity.
  repeat split; try reflexivity;
    unfold call_type; rewrite ?Hsv, ?Hss; unfold depth; cbn [find fst];
    rewrite viewport_params_take; try reflexivity;
    auto; repeat constructor.
Qed.

(** ** Loading the three files *)

Lemma test_module_head_is_declarations :
  stream_test.body = (firstn 24 stream_test.body ++ from_line_547)%list
  /\ forallb is_declaration (firstn 24 stream_test.body) = true
  /\ hd_error from_line_547
     = Some (SExpr (ECall (EId "addAbortSignal")
                          [ENew (EId "AbortSignal") []; ENew (EId "Readable") []])).
Proof. repeat split. Qed.

(** Whatever the functions outside it do, loading the test module begins
    with the construction of an [AbortSignal] (line 547). *)
Lemma test_module_load_begins (throws : outcomes) :
  exists rest ending,
    run throws stream_test.file
    = Some (EvNew "AbortSignal" 0 :: rest, ending).
Proof.
  unfold run.
  replace (existsb _ (body stream_test.file)) with false
    by (vm_compute; reflexivity).
  destruct test_module_head_is_declarations as [Hsplit [Hdecl _]].
  change (body stream_test.file) with stream_test.body.
  rewrite Hsplit, (exec_all_after_declarations throws [] _ _ Hdecl).
  unfold from_line_547.
  let l := eval vm_compute in (skipn 24 stream_test.body) in
  change (skipn 24 stream_test.body) with l.
  match goal with
  | |- context [exec_all throws [] (?s :: ?r)] =>
      change (exec_all throws [] (s :: r))
        with (and_then [] (exec throws [] s) (fun d => exec_all throws d r));
      generalize (fun d => exec_all throws d r); intros next
  end.
  cbn [exec eval and_then attempt app show length].
  destruct (throws [] (EvNew "AbortSignal" 0)); cbn [and_then app].
  - eexists; eexists; reflexivity.
  - destruct (throws [EvNew "AbortSignal" 0] (EvNew "Readable" 0));
      cbn [and_then app attempt].
    + eexists; eexists; reflexivity.
    + destruct (throws _ (EvCall "addAbortSignal" 2)); cbn [and_then app].
      * eexists; eexists; reflexivity.
      * destruct (next _) as [t e]. eexists; eexists; reflexivity.
Qed.

(** If that construction throws, the load ends there. *)
Lemma test_module_load_stops_at_the_first_throw (throws : outcomes) :
  throws [] (EvNew "AbortSignal" 0) = true ->
  run throws stream_test.file = Some ([EvNew "AbortSignal" 0], Threw).
Proof.
  intros Hthrow. unfold run.
  replace (existsb _ (body stream_test.file)) with false
    by (vm_compute; reflexivity).
  destruct test_module_head_is_declarations as [Hsplit [Hdecl _]].
  change (body stream_test.file) with stream_test.body.
  rewrite Hsplit, (exec_all_after_declarations throws [] _ _ Hdecl).
  unfold from_line_547.
  let l := eval vm_compute in (skipn 24 stream_test.body) in
  change (skipn 24 stream_test.body) with l.
  match goal with
  | |- context [exec_all throws [] (?s :: ?r)] =>
      change (exec_all throws [] (s :: r))
        with (and_then [] (exec throws [] s) (fun d => exec_all throws d r));
      generalize (fun d => exec_all throws d r); intros next
  end.
  cbn [exec eval and_then attempt app show length].
  rewrite Hthrow. reflexivity.
Qed.

(** C3, as stated, fails on the stream test module: loading it is not
    without effect, it begins by constructing an [AbortSignal] (line 547). *)
Lemma stream_test_module_is_not_empty :
  (forall throws : outcomes,
     run throws stream_test.file <> Some ([], Finished))
  /\ ~ (forall f, In f repository -> equivalent_to_empty f).
Proof.
  assert (Hne : forall throws : outcomes,
             run throws stream_test.file <> Some ([], Finished)).
  { intros throws H.
    destruct (test_module_load_begins throws) as [rest [e Hrun]].
    rewrite Hrun in H. discriminate H. }
  split; [exact Hne |].
  intros H.
  assert (Hin : In stream_test.file repository) by (simpl; auto).
  exact (Hne (fun _ _ => false) (H _ Hin (fun _ _ => false))).
Qed.

(** C3, amended.  The two declaration files consist of declarations only and
    loading them does nothing.  The stream test module is not without
    effect: it declares sixteen functions, which none of its other
    statements mentions, but it has statements outside these functions, and
    whatever the functions it calls do, loading it begins with the
    construction of an [AbortSignal]. *)
Theorem declaration_files_run_nothing_test_module_runs_calls :
  map ambient repository = [false; true; true]
  /\ forallb is_declaration (body WebGLRenderer_d_ts.file) = true
  /\ forallb is_declaration (body Lut3DNode_d_ts.file) = true
  /\ equivalent_to_empty WebGLRenderer_d_ts.file
  /\ equivalent_to_empty Lut3DNode_d_ts.file
  /\ length (function_names (body stream_test.file)) = 16
  /\ existsb (stmt_mentions (function_names (body stream_test.file)))
             (body stream_test.file) = false
  /\ (forall throws : outcomes,
        exists rest ending,
          run throws stream_test.file
          = Some (EvNew "AbortSignal" 0 :: rest, ending)).
Proof.
  assert (Hw : forallb is_declaration (body WebGLRenderer_d_ts.file) = true)
    by reflexivity.
  assert (Hl : forallb is_declaration (body Lut3DNode_d_ts.file) = true)
    by reflexivity.
  split; [reflexivity |]. split; [exact Hw |]. split; [exact Hl |].
  split; [now apply declarations_load_empty |].
  split; [now apply declarations_load_empty |].
  split; [reflexivity |]. split; [reflexivity |].
  exact test_module_load_begins.
Qed.

(** ** Imports *)

(** C8, as stated, fails on [WebGLRenderer.d.ts]: its first import,
    ["../cameras/Camera.js"], is relative and resolves to the declaration
    file [types/three/src/cameras/Camera.d.ts] of this tree. *)
Lemma WebGLRenderer_imports_sibling_files :
  resolve (path WebGLRenderer_d_ts.file) "../cameras/Camera.js"
    = RepoFile "types/three/src/cameras/Camera.d.ts"
  /\ ~ imports_only_external WebGLRenderer_d_ts.file.
Proof.
  split; [reflexivity |].
  intros H.
  specialize (H (resolve (path WebGLRenderer_d_ts.file) "../cameras/Camera.js")).
  rewrite relative_not_external in H by reflexivity.
  assert (Hf : false = true) by (apply H; simpl; auto).
  discriminate Hf.
Qed.

(** C8, amended.  No import of the stream test module can reach a file of
    the renderer set, no import of the renderer set can reach the stream test
    module, and neither set imports a name the other declares.  The fourteen
    imports of the stream test module all name modules of the Node runtime;
    the two imports of [Lut3DNode.d.ts] name the package [three]; the
    twenty-seven imports of [WebGLRenderer.d.ts] are all relative and resolve
    to declaration files under [types/three/src/], none of them one of the
    three files at hand. *)
Theorem declaration_sets_are_independent :
  independent_of stream_set renderer_set = true
  /\ independent_of renderer_set stream_set = true
  /\ length (targets stream_test.file) = 14
  /\ forallb is_builtin (targets stream_test.file) = true
  /\ targets Lut3DNode_d_ts.file = [Package "three"; Package "three"]
  /\ length (targets WebGLRenderer_d_ts.file) = 27
  /\ forallb (is_file_under "types/three/src/")
             (targets WebGLRenderer_d_ts.file) = true
  /\ forallb (fun t => forallb (fun f => negb (reaches t f)) repository)
             (targets WebGLRenderer_d_ts.file) = true.
Proof. repeat split; vm_compute; reflexivity. Qed.

(** * Further properties of the declarations *)

Unset Implicit Arguments.

(** ** Lists of names *)

Lemma mem_string_In (x : string) (l : list string) :
  mem_string x l = true <-> In x l.
Proof.
  unfold mem_string. rewrite existsb_exists. split.
  - intros [y [Hin Heq]]. apply String.eqb_eq in Heq. now subst.
  - intros Hin. exists x. split; [exact Hin | apply String.eqb_refl].
Qed.

Lemma distinct_NoDup (l : list string) : distinct l = true -> NoDup l.
Proof.
  induction l as [| x r IH]; simpl; intros H; constructor.
  - apply andb_true_iff in H as [Hx _]. intros Hin.
    apply mem_string_In in Hin. now rewrite Hin in Hx.
  - apply IH. now apply andb_true_iff in H as [_ Hr].
Qed.

(** ** Signatures of a method *)

Lemma method_sigs_In (ms : list member) (name : string) (ps : list param) (r : ty) :
  In (ps, r) (method_sigs ms name) <-> In (MMethod name ps r) ms.
Proof.
  unfold method_sigs. rewrite in_flat_map. split.
  - intros [m [Hm Hin]]. destruct m; simpl in Hin; try contradiction.
    destruct (String.eqb_spec name0 name) as [-> | _]; [| contradiction].
    destruct Hin as [Heq | []]. now injection Heq as <- <-.
  - intros Hin. exists (MMethod name ps r). split; [exact Hin |].
    simpl. rewrite String.eqb_refl. now left.
Qed.

Lemma method_sigs_undeclared (ms : list member) (name : string) :
  ~ In name (method_names ms) -> method_sigs ms name = [].
Proof.
  induction ms as [| m r IH]; [reflexivity |].
  intros Hnot. unfold method_sigs, method_names in *. simpl in *.
  rewrite in_app_iff in Hnot.
  rewrite IH by tauto.
  destruct m; try reflexivity.
  destruct (String.eqb_spec name0 name) as [-> | _]; [| reflexivity].
  exfalso. apply Hnot. left. now left.
Qed.

(** A class that names each method once has no overloads. *)
Lemma method_sigs_single (ms : list member) (name : string) :
  NoDup (method_names ms) -> length (method_sigs ms name) <= 1.
Proof.
  induction ms as [| m r IH]; [simpl; lia |].
  intros Hnd.
  change (method_sigs (m :: r) name)
    with (match m with
          | MMethod n ps t => if String.eqb n name then [(ps, t)] else []
          | _ => []
          end ++ method_sigs r name)%list.
  change (method_names (m :: r))
    with (match m with MMethod n _ _ => [n] | _ => [] end ++ method_names r)%list
    in Hnd.
  destruct m; simpl in *; try now apply IH.
  inversion Hnd as [| x l Hnotin Hnd']; subst.
  destruct (String.eqb_spec name0 name) as [-> | _]; [| now apply IH].
  rewrite (method_sigs_undeclared _ _ Hnotin). simpl. lia.
Qed.

Section CallFacts.

Variable ct : string -> option class_info.

Lemma args_fit_length (fuel : nat) (ps : list param) (args : list ty) :
  args_fit ct fuel ps args = true -> length args <= length ps.
Proof.
  revert ps. induction args as [| a ar IH]; intros ps H; [simpl; lia |].
  destruct ps as [| p pr]; simpl in H; [discriminate |].
  apply andb_true_iff in H as [_ H]. apply IH in H. simpl. lia.
Qed.

(** An accepted argument list is neither too short nor too long. *)
Lemma call_ok_arity (fuel : nat) (ps : list param) (args : list ty) :
  call_ok ct fuel ps args = true ->
  min_args ps <= length args /\ length args <= length ps.
Proof.
  unfold call_ok. intros H. apply andb_true_iff in H as [Hmin Hfit].
  split; [now apply Nat.leb_le | now apply args_fit_length in Hfit].
Qed.

End CallFacts.

(** ** Parameter lists *)

Lemma all_optional_min_args (ps : list param) :
  forallb optional ps = true -> min_args ps = 0 /\ required_count ps = 0.
Proof.
  induction ps as [| p r IH]; [now split |].
  simpl. intros H. apply andb_true_iff in H as [Hp Hr].
  destruct (IH Hr) as [Hm Hc]. unfold required_count in *. simpl.
  now rewrite Hm, Hp.
Qed.

(** With the optional parameters last, the least number of arguments is the
    number of required parameters. *)
Lemma min_args_required_count (ps : list param) :
  optional_trailing ps = true -> min_args ps = required_count ps.
Proof.
  induction ps as [| p r IH]; [reflexivity |].
  simpl. intros H. apply andb_true_iff in H as [Hp Hr].
  specialize (IH Hr). unfold required_count in *. simpl.
  destruct (optional p) eqn:Ho; simpl.
  - destruct (all_optional_min_args _ Hp) as [Hm Hc].
    unfold required_count in Hc. now rewrite Hm, Hc.
  - rewrite <- IH. now destruct (min_args r).
Qed.

(** ** The classes and interfaces of the renderer set *)

(** X1.  In each of the four interfaces and classes of the two declaration
    files, every property and method is declared once (a setter only beside
    its getter), no method is overloaded and there is at most one
    constructor. *)
Theorem renderer_members_declared_once :
  map fst renderer_declarations
    = ["WebGLRendererParameters"; "WebGLDebug"; "WebGLRenderer"; "Lut3DNode"]
  /\ Forall (fun d =>
               NoDup (member_names (snd d))
               /\ (forall name, length (method_sigs (snd d) name) <= 1)
               /\ incl (map fst (setters (snd d))) (map fst (getters (snd d)))
               /\ length (class_ctors (snd d)) <= 1)
            renderer_declarations.
Proof.
  split; [reflexivity |].
  assert (H : forallb (fun d =>
                 distinct (member_names (snd d))
                 && distinct (method_names (snd d))
                 && forallb (fun n => mem_string n (map fst (getters (snd d))))
                            (map fst (setters (snd d)))
                 && Nat.leb (length (class_ctors (snd d))) 1)
              renderer_declarations = true) by reflexivity.
  rewrite forallb_forall in H. apply Forall_forall. intros d Hin.
  specialize (H d Hin).
  repeat (apply andb_true_iff in H as [H ?]).
  repeat split.
  - now apply distinct_NoDup.
  - intros name. now apply method_sigs_single, distinct_NoDup.
  - intros n Hn. apply mem_string_In.
    match goal with
    | Hs : forallb _ (map fst (setters _)) = true |- _ =>
        rewrite forallb_forall in Hs; now apply Hs
    end.
  - now apply Nat.leb_le.
Qed.

Lemma renderer_signatures_shape :
  Forall (fun ps =>
            optional_trailing ps = true
            /\ min_args ps = required_count ps
            /\ length ps <= 8)
         renderer_signatures.
Proof.
  assert (H : forallb (fun ps => optional_trailing ps && Nat.leb (length ps) 8)
                      renderer_signatures = true) by reflexivity.
  rewrite forallb_forall in H. apply Forall_forall. intros ps Hin.
  specialize (H ps Hin). apply andb_true_iff in H as [Ht Hl].
  repeat split; [exact Ht | now apply min_args_required_count
                | now apply Nat.leb_le].
Qed.

(** X2.  In every parameter list of the two declaration files, of a
    constructor, a method, a setter or a function type inside any member,
    the optional parameters come last; so the least number of arguments a
    call needs is the number of parameters not marked optional.  There are
    68 such lists and none has more than eight parameters. *)
Theorem renderer_signatures_optional_last :
  length renderer_signatures = 68
  /\ Forall (fun ps =>
               optional_trailing ps = true
               /\ min_args ps = required_count ps
               /\ length ps <= 8)
            renderer_signatures.
Proof. split; [reflexivity | exact renderer_signatures_shape]. Qed.

(** X3.  [compile] and [compileAsync] are declared as properties of function
    type, not as methods, and they are the only members of [WebGLRenderer]
    of that kind.  They can be called like methods: whatever the imported
    declarations are, a call with an [Object3D] and a [Camera], alone or
    followed by a [Scene] or by [null], is accepted, with result
    [Set<Material>] for [compile] and [Promise<Object3D>] for
    [compileAsync]. *)
Theorem compile_properties_are_callable (ct : string -> option class_info) :
  method_sigs WebGLRenderer_d_ts.WebGLRenderer_members "compile" = []
  /\ method_sigs WebGLRenderer_d_ts.WebGLRenderer_members "compileAsync" = []
  /\ field_type WebGLRenderer_d_ts.WebGLRenderer_members "compile"
     = Some (TFun WebGLRenderer_d_ts.compile_params (TRef "Set" [named "Material"]))
  /\ field_type WebGLRenderer_d_ts.WebGLRenderer_members "compileAsync"
     = Some (TFun WebGLRenderer_d_ts.compile_params
                  (TRef "Promise" [named "Object3D"]))
  /\ function_typed_properties WebGLRenderer_d_ts.WebGLRenderer_members
     = ["compile"; "compileAsync"]
  /\ (let returns name args t :=
        call_type ct depth WebGLRenderer_d_ts.WebGLRenderer_members name args
        = Some t in
      let scene_camera := [named "Object3D"; named "Camera"] in
      returns "compile" scene_camera (TRef "Set" [named "Material"])
      /\ returns "compile" (scene_camera ++ [named "Scene"])%list
                  (TRef "Set" [named "Material"])
      /\ returns "compile" (scene_camera ++ [TNull])%list
                  (TRef "Set" [named "Material"])
      /\ returns "compileAsync" scene_camera (TRef "Promise" [named "Object3D"])
      /\ returns "compileAsync" (scene_camera ++ [named "Scene"])%list
                  (TRef "Promise" [named "Object3D"])
      /\ returns "compileAsync" (scene_camera ++ [TNull])%list
                  (TRef "Promise" [named "Object3D"])).
Proof. repeat split. Qed.

(** ** Configuring and constructing the renderer *)

(** X4.  Every option of [WebGLRendererParameters] may be left out and may
    also be set to [undefined] explicitly, while both properties of
    [WebGLDebug] are required.  The constructor of [WebGLRenderer] has one
    optional parameter: whatever the imported declarations are, it may be
    called with no argument at all, with [undefined], or with a
    [WebGLRendererParameters]. *)
Theorem WebGLRenderer_options_are_optional (ct : string -> option class_info) :
  length (class_fields WebGLRenderer_d_ts.WebGLRendererParameters_members) = 10
  /\ Forall (fun m => exists n t,
               m = MField n true t
               /\ assignable ct depth TUndefined t = true)
            WebGLRenderer_d_ts.WebGLRendererParameters_members
  /\ Forall (fun m => exists n t, m = MField n false t)
            WebGLRenderer_d_ts.WebGLDebug_members
  /\ (exists ps,
        class_ctors WebGLRenderer_d_ts.WebGLRenderer_members = [ps]
        /\ min_args ps = 0
        /\ call_ok ct depth ps [] = true
        /\ call_ok ct depth ps [TUndefined] = true
        /\ call_ok ct depth ps [named "WebGLRendererParameters"] = true
        /\ call_ok ct depth ps [named "WebGLRendererParameters"; TUndefined]
           = false).
Proof.
  split; [reflexivity |]. split.
  { unfold WebGLRenderer_d_ts.WebGLRendererParameters_members.
    repeat (apply Forall_cons; [eexists; eexists; split; reflexivity |]).
    apply Forall_nil. }
  split.
  { unfold WebGLRenderer_d_ts.WebGLDebug_members.
    repeat (apply Forall_cons; [eexists; eexists; reflexivity |]).
    apply Forall_nil. }
  eexists. split; [reflexivity |]. repeat split.
Qed.

(** X5.  Of all that can be read from a [WebGLRenderer], only
    [coordinateSystem] cannot be assigned to: it has a getter and no setter.
    Nothing is write-only, and the one setter, [outputColorSpace], takes the
    type its getter returns. *)
Theorem WebGLRenderer_only_coordinateSystem_is_read_only :
  filter (fun n => negb (mem_string n
            (assignable_names WebGLRenderer_d_ts.WebGLRenderer_members)))
         (readable_names WebGLRenderer_d_ts.WebGLRenderer_members)
    = ["coordinateSystem"]
  /\ filter (fun n => negb (mem_string n
               (readable_names WebGLRenderer_d_ts.WebGLRenderer_members)))
            (assignable_names WebGLRenderer_d_ts.WebGLRenderer_members)
    = []
  /\ setters WebGLRenderer_d_ts.WebGLRenderer_members
    = [("outputColorSpace", TString)]
  /\ incl (setters WebGLRenderer_d_ts.WebGLRenderer_members)
          (getters WebGLRenderer_d_ts.WebGLRenderer_members).
Proof.
  repeat split; try reflexivity.
  intros s Hs. simpl in Hs. destruct Hs as [<- | []]. simpl. auto.
Qed.

(** ** Names *)

(** X6.  In both declaration files every imported name is mentioned by a
    declaration, no name is imported twice and none clashes with a name the
    file declares.  [Lut3DNode.d.ts] mentions no other name;
    [WebGLRenderer.d.ts] mentions eight names it neither imports nor
    declares, all of them left to the ambient libraries. *)
Theorem renderer_imports_all_used :
  Forall (fun f =>
            unused_imports f = []
            /\ NoDup (local_names f)
            /\ disjoint (local_names f) (declared_names f) = true)
         renderer_set
  /\ length (local_names WebGLRenderer_d_ts.file) = 33
  /\ length (local_names Lut3DNode_d_ts.file) = 6
  /\ ambient_names Lut3DNode_d_ts.file = []
  /\ ambient_names WebGLRenderer_d_ts.file
     = [ "HTMLCanvasElement"; "WebGLRenderingContext"; "WebGLPowerPreference";
         "WebGLShader"; "WebGL2RenderingContext"; "XRFrameRequestCallback";
         "Set"; "Promise" ].
Proof.
  split; [| repeat split; reflexivity].
  repeat (apply Forall_cons;
          [ repeat split; try reflexivity; apply distinct_NoDup; reflexivity |]).
  apply Forall_nil.
Qed.

(** ** Getters and setters by name *)

(** X7.  Every method of [WebGLRenderer] whose name begins with [get] takes
    either nothing or a single required [target], and then returns the type
    of that target.  Every method whose name begins with [set] is declared
    to return [void] and has a first parameter that is not marked
    optional. *)
Theorem WebGLRenderer_getters_and_setters :
  length (methods_named "get" WebGLRenderer_d_ts.WebGLRenderer_members) = 17
  /\ Forall (fun m => let '(_, ps, r) := m in
               ps = [] \/ ps = [req "target" r])
            (methods_named "get" WebGLRenderer_d_ts.WebGLRenderer_members)
  /\ length (methods_named "set" WebGLRenderer_d_ts.WebGLRenderer_members) = 12
  /\ Forall (fun m => let '(_, ps, r) := m in
               r = TVoid
               /\ exists first others,
                    ps = first :: others /\ optional first = false)
            (methods_named "set" WebGLRenderer_d_ts.WebGLRenderer_members).
Proof.
  split; [reflexivity |]. split.
  { let l := eval vm_compute in
       (methods_named "get" WebGLRenderer_d_ts.WebGLRenderer_members) in
    change (methods_named "get" WebGLRenderer_d_ts.WebGLRenderer_members) with l.
    repeat (apply Forall_cons; [first [now left | now right] |]).
    apply Forall_nil. }
  split; [reflexivity |].
  let l := eval vm_compute in
     (methods_named "set" WebGLRenderer_d_ts.WebGLRenderer_members) in
  change (methods_named "set" WebGLRenderer_d_ts.WebGLRenderer_members) with l.
  repeat (apply Forall_cons;
          [ split; [reflexivity |]; eexists; eexists; split; reflexivity |]).
  apply Forall_nil.
Qed.

(** ** Constructor parameters and fields of the lookup-table node *)

(** X16.  The constructor of [Lut3DNode] has one parameter for each field,
    under the same name and in the same order.  As written, the type of the
    parameter is the type of the field for [inputNode] and [intensityNode],
    and another type for [lutNode] ([UniformNode<Data3DTexture>] against
    [Texture3DNode]) and for [size] ([number] against
    [ShaderNodeObject<UniformNode<number>>]). *)
Theorem Lut3DNode_parameters_and_fields :
  map fst (ctor_param_types Lut3DNode_d_ts.Lut3DNode_members)
    = map fst (class_fields Lut3DNode_d_ts.Lut3DNode_members)
  /\ written_differently Lut3DNode_d_ts.Lut3DNode_members = ["lutNode"; "size"]
  /\ Forall (fun n =>
               ctor_param_type Lut3DNode_d_ts.Lut3DNode_members n
               = field_type Lut3DNode_d_ts.Lut3DNode_members n)
            ["inputNode"; "intensityNode"]
  /\ ctor_param_type Lut3DNode_d_ts.Lut3DNode_members "lutNode"
     = Some (TRef "UniformNode" [named "Data3DTexture"])
  /\ field_type Lut3DNode_d_ts.Lut3DNode_members "lutNode"
     = Some (named "Texture3DNode")
  /\ ctor_param_type Lut3DNode_d_ts.Lut3DNode_members "size" = Some TNumber
  /\ field_type Lut3DNode_d_ts.Lut3DNode_members "size"
     = Some (TRef "ShaderNodeObject" [TRef "UniformNode" [TNumber]]).
Proof.
  repeat split; try reflexivity.
  repeat constructor.
Qed.

(** ** Where the imports of the renderer set lead *)

(** X15.  No import of the two renderer declaration files can reach a file
    outside [types/three/]: the relative imports of [WebGLRenderer.d.ts]
    stay under that directory and the imports of [Lut3DNode.d.ts] name the
    package whose typings it holds. *)
Theorem renderer_imports_never_leave_three (g : source_file)
        (Hout : prefix "types/three/" (path g) = false) :
  Forall (fun f => Forall (fun t => reaches t g = false) (targets f))
         renderer_set.
Proof.
  pose proof (renderer_set_imports_stay_in_three g Hout) as H.
  rewrite forallb_forall in H. apply Forall_forall. intros f Hf.
  specialize (H f Hf). rewrite forallb_forall in H.
  apply Forall_forall. intros t Ht. specialize (H t Ht).
  now destruct (reaches t g).
Qed.

(** X15 at the stream test module. *)
Lemma renderer_imports_never_leave_three_witness :
  prefix "types/three/" (path stream_test.file) = false
  /\ Forall (fun f => Forall (fun t => reaches t stream_test.file = false)
                             (targets f))
            renderer_set.
Proof.
  split; [reflexivity |].
  apply (renderer_imports_never_leave_three stream_test.file).
  reflexivity.
Defined.

(** * Properties of the test module *)

(** The full embedding stands for the first one: without the directives and
    the function bodies, its statements are those of [stream_test.body]. *)
Lemma full_embedding_agrees :
  erase_module stream_test_full.module
  = Some (map forget_lines stream_test.body)
  /\ declared_functions stream_test_full.module
     = function_names stream_test.body.
Proof. split; reflexivity. Qed.

(** ** Names *)

(** X8.  Outside the scope of its parameters, loop variables and local
    declarations, the test module refers only to names it imports and to
    twelve globals of the runtime.  It never refers to one of the sixteen
    functions it declares: no test function is called, neither by a
    statement of the module nor by another function. *)
Theorem test_module_refers_to_imports_and_globals :
  filter (fun n => negb (mem_string n (local_names stream_test.file)))
         module_references
    = globals
  /\ length (declared_functions stream_test_full.module) = 16
  /\ Forall (fun f => ~ In f module_references)
            (declared_functions stream_test_full.module).
Proof.
  split; [reflexivity |]. split; [reflexivity |].
  assert (H : forallb (fun f => negb (mem_string f module_references))
                      (declared_functions stream_test_full.module) = true)
    by reflexivity.
  rewrite forallb_forall in H. apply Forall_forall. intros f Hin Href.
  specialize (H f Hin). apply mem_string_In in Href.
  now rewrite Href in H.
Qed.

(** X9.  Every import of the test module is used: twenty-nine as values, and
    [Http2ServerResponse] as a type only.  The thirty local names are
    distinct although [finished] and [pipeline] are each imported from two
    modules, the second time under another name. *)
Theorem test_module_imports_all_used :
  length (local_names stream_test.file) = 30
  /\ NoDup (local_names stream_test.file)
  /\ filter (fun n => negb (mem_string n module_references))
            (local_names stream_test.file)
     = ["Http2ServerResponse"]
  /\ In "Http2ServerResponse" module_type_mentions
  /\ filter (fun n => negb (String.eqb (fst n) (snd n)))
            (flat_map (fun s => match s with
                                | SImport (Named bs) _ => bs
                                | _ => []
                                end) (body stream_test.file))
     = [ ("finished", "finishedPromise"); ("pipeline", "pipelinePromise");
         ("setInterval", "every"); ("setTimeout", "wait");
         ("MessageChannel", "NodeMC") ]
  /\ In "finished" (local_names stream_test.file)
  /\ In "pipeline" (local_names stream_test.file).
Proof.
  split; [reflexivity |].
  split; [apply distinct_NoDup; reflexivity |].
  split; [reflexivity |].
  repeat split; try reflexivity; apply mem_string_In; reflexivity.
Qed.

(** ** Suspension *)

(** X10.  In the test module every [await] and every [for await] stands
    directly inside an async function, and every [yield] directly inside a
    generator; the statements outside the functions use neither.  There are
    38 of the former and 25 of the latter. *)
Theorem test_module_suspends_inside_async_and_generators :
  suspends_ok_cmd false false (Block stream_test_full.module) = true
  /\ suspensions_cmd (Block stream_test_full.module) = (38, 25)
  /\ suspensions_cmd (Block (stream_test_full.top_level_1
                             ++ stream_test_full.top_level_2)) = (0, 0).
Proof. repeat split. Qed.

(** ** The pipeline tests *)

(** X11.  The test of the promise pipeline with an abort signal is the test
    without it, statement for statement, with [{ signal }] added as the last
    argument of every [pipelinePromise] call, after the declaration of
    [signal]; so both expect the same types.  The callback pipeline test
    expects the same three types of [source] as the two of them. *)
Theorem pipeline_tests_agree :
  body_of stream_test_full.streamPipelineAsyncPromiseAbortTransform
    = Decl Const (BObj ["signal"]) None (Some (New (Id "AbortController") [] []))
      :: map (with_option (Obj [Short "signal"]))
             (body_of stream_test_full.streamPipelineAsyncPromiseTransform)
  /\ length (body_of stream_test_full.streamPipelineAsyncPromiseTransform) = 4
  /\ deep_expectations stream_test_full.streamPipelineAsyncPromiseAbortTransform
     = deep_expectations stream_test_full.streamPipelineAsyncPromiseTransform
  /\ map snd (deep_expectations
                stream_test_full.streamPipelineAsyncPromiseTransform)
     = [ ["ReadStream & { fd: 0; }"]; ["void"]; ["string"];
         ["AsyncIterable<string>"]; ["void"]; ["Date"]; ["void"] ]
  /\ filter (fun ex => is_id "source" (fst ex))
            (deep_expectations stream_test_full.streamPipelineAsyncTransform)
     = filter (fun ex => is_id "source" (fst ex))
              (deep_expectations
                 stream_test_full.streamPipelineAsyncPromiseTransform)
  /\ map snd (deep_expectations stream_test_full.streamPipelineAsyncTransform)
     = [ ["ReadStream & { fd: 0; }"]; ["string"]; ["AsyncIterable<string>"];
         ["Date"] ].
Proof. repeat split. Qed.

(** ** The simplified constructors *)

(** X12.  In the test of the simplified constructors, inside every option
    method of [new C({ ... })] the type expected of [this] is the class [C]
    being constructed, for [Readable], [Writable], [Duplex] and
    [Transform] alike; and the type expected of a parameter depends only on
    the method and the parameter, not on the class. *)
Theorem constructor_callbacks_expect_the_constructed_class :
  let tests :=
    ctor_expectations (body_of stream_test_full.simplified_stream_ctor_test) in
  length tests = 53
  /\ dedup [] (map in_class tests)
     = ["Readable"; "Writable"; "Duplex"; "Transform"]
  /\ length (filter (fun t => is_this (subject t)) tests) = 20
  /\ Forall (fun t => subject t = This -> expected t = [in_class t]) tests
  /\ Forall (fun a =>
       Forall (fun b =>
         forall x, subject a = Id x -> subject b = Id x ->
                   in_method a = in_method b -> expected a = expected b)
         tests) tests.
Proof.
  cbv zeta.
  split; [reflexivity |]. split; [reflexivity |]. split; [reflexivity |].
  let l := eval vm_compute in
     (ctor_expectations (body_of stream_test_full.simplified_stream_ctor_test)) in
  change (ctor_expectations (body_of stream_test_full.simplified_stream_ctor_test))
    with l.
  split.
  - repeat (apply Forall_cons;
            [ cbn [subject expected in_class]; intros H;
              first [reflexivity | discriminate H] |]).
    apply Forall_nil.
  - repeat (apply Forall_cons;
            [ repeat (apply Forall_cons;
                      [ cbn [subject expected in_class in_method];
                        intros x Ha Hb Hm;
                        first [ reflexivity
                              | discriminate Ha
                              | discriminate Hb
                              | discriminate Hm
                              | congruence ] |]);
              apply Forall_nil |]).
    apply Forall_nil.
Qed.

(** ** Directives *)

(** X13.  Every [$ExpectType] and [@ts-expect-error] of the test module
    stands beside an expression statement: on the line before it, or at the
    end of its line.  There are 118 [$ExpectType], all naming one type
    except the one on [consumers.buffer], which allows two, and six
    [@ts-expect-error], each on a statement that is a call. *)
Theorem directives_are_attached :
  let blocks := all_blocks stream_test_full.module in
  forallb attached blocks = true
  /\ length (flat_map expectations blocks) = 118
  /\ filter (fun ex => negb (Nat.eqb (length (snd ex)) 1))
            (flat_map expectations blocks)
     = [ (Await (Call (Member (Id "consumers") "buffer") [Id "consumable"]),
          ["Buffer"; "Buffer<ArrayBufferLike>"]) ]
  /\ length (flat_map negatives blocks) = 6
  /\ length (calls (flat_map negatives blocks)) = 6.
Proof. repeat split. Qed.

Ltac in_list := simpl; repeat (first [left; reflexivity | right]).

(** X14.  Every call marked [@ts-expect-error] differs in exactly one
    argument from a call of the same function that stands unmarked in the
    same statement list: each negative test is a positive test with one
    argument changed. *)
Theorem negative_tests_change_one_argument :
  length (negative_cases stream_test_full.module) = 6
  /\ Forall (fun nc =>
               let '(callee, args, accepted) := nc in
               exists args',
                 In (callee, args') accepted /\ one_differs args args')
            (negative_cases stream_test_full.module).
Proof.
  split; [reflexivity |].
  let l := eval vm_compute in (negative_cases stream_test_full.module) in
  change (negative_cases stream_test_full.module) with l.
  repeat apply Forall_cons; try apply Forall_nil.
  - (* fin(process.stdin, { cleanup: false }) *)
    exists [stream_test_full.stdin; Obj [Init "error" (BoolLit false)]].
    split; [in_list |].
    exists [stream_test_full.stdin], (Obj [Init "cleanup" (BoolLit false)]),
           (Obj [Init "error" (BoolLit false)]), [].
    repeat split; discriminate.
  - (* Readable.fromWeb(web, { emitClose: true }) *)
    exists [Id "web"; stream_test_full.objectMode_on].
    split; [in_list |].
    exists [Id "web"], (Obj [Init "emitClose" (BoolLit true)]),
           stream_test_full.objectMode_on, [].
    repeat split; discriminate.
  - (* Writable.fromWeb(web, { write: true }) *)
    exists [Id "web"; stream_test_full.objectMode_on].
    split; [in_list |].
    exists [Id "web"], (Obj [Init "write" (BoolLit true)]),
           stream_test_full.objectMode_on, [].
    repeat split; discriminate.
  - (* Duplex.fromWeb({ readable, writable }, { emitClose: true }) *)
    exists [stream_test_full.pair_obj; stream_test_full.objectMode_on].
    split; [in_list |].
    exists [stream_test_full.pair_obj], (Obj [Init "emitClose" (BoolLit true)]),
           stream_test_full.objectMode_on, [].
    repeat split; discriminate.
  - (* readable.reduce((prev, data) => prev * data, "1") *)
    exists [stream_test_full.product; Num 1].
    split; [in_list |].
    exists [stream_test_full.product], (Str "1"), (Num 1), [].
    repeat split; discriminate.
  - (* readable.reduce((prev: string, data) => +prev * data, 1) *)
    exists [stream_test_full.product; Num 1].
    split; [in_list |].
    eexists [], _, stream_test_full.product, [Num 1].
    repeat split; discriminate.
Qed.
